(** * EthioMed data warehouse: the Telegram data cleaner

    A shallow embedding of [scripts/data_cleaner.py] (class [DataCleaner]) and
    the properties of its cleaning pipeline.

    - Python strings are sequences of Unicode code points: [text := list N].
    - A [DataFrame] is a list of column names and a list of rows of cells.
    - The methods of [DataCleaner] run in a state-and-exception monad over a
      [World]: the heap of DataFrame objects (methods mutate them in place and
      hand references around), the file system and the log.
    - What the module imports from third-party packages and cannot be read
      from the repository ([emoji.replace_emoji], [str.lower] outside ASCII,
      [pd.to_datetime], the CSV text format, the text of a float, the
      refusals of the operating system) is the interface [PyLib]; every
      general theorem holds for every instance of it. *)

From Stdlib Require Import NArith ZArith String Ascii List Lia Bool.
From stdpp Require Import base option list gmap.

Import ListNotations.
Local Open Scope N_scope.
Local Open Scope list_scope.

(** ** Text *)

(** A Python [str]: its code points, in order. *)
Abbreviation text := (list N).

(** An ASCII literal as text. *)
Definition str (s : string) : text :=
  List.map N_of_ascii (list_ascii_of_string s).

Definition is_ascii (c : N) : bool := c <? 128.
Definition is_lower (c : N) : bool := (97 <=? c) && (c <=? 122).
Definition is_upper (c : N) : bool := (65 <=? c) && (c <=? 90).
Definition is_digit (c : N) : bool := (48 <=? c) && (c <=? 57).
Definition to_lower (c : N) : N := if is_upper c then c + 32 else c.
Definition to_upper (c : N) : N := if is_lower c then c - 32 else c.

(** [str.isspace] on one code point, which is also what [\s] matches in a
    [str] pattern and what [str.strip()] removes (CPython's
    [_PyUnicode_IsWhitespace]). *)
Definition isspace (c : N) : bool :=
  ((9 <=? c) && (c <=? 13)) || ((28 <=? c) && (c <=? 32))
  || (c =? 133) || (c =? 160) || (c =? 5760)
  || ((8192 <=? c) && (c <=? 8202))
  || (c =? 8232) || (c =? 8233) || (c =? 8239) || (c =? 8287) || (c =? 12288).

Fixpoint lstrip (s : text) : text :=
  match s with
  | [] => []
  | c :: s' => if isspace c then lstrip s' else s
  end.

Fixpoint rstrip (s : text) : text :=
  match s with
  | [] => []
  | c :: s' =>
      match rstrip s' with
      | [] => if isspace c then [] else [c]
      | r => c :: r
      end
  end.

(** [str.strip()] *)
Definition strip (s : text) : text := lstrip (rstrip s).

(** [str.title()] on text whose cased characters are ASCII letters: the first
    letter after a character that is not a letter is upper-cased, the others
    are lower-cased.  [standardize_formats] calls it after deleting every
    character outside [a-zA-Z0-9\s], where this is all of [str.title()]. *)
Fixpoint title_from (previous_is_cased : bool) (s : text) : text :=
  match s with
  | [] => []
  | c :: s' =>
      if is_lower c || is_upper c
      then (if previous_is_cased then to_lower c else to_upper c)
             :: title_from true s'
      else c :: title_from false s'
  end.

Definition title (s : text) : text := title_from false s.

(** ** Regular expressions of the module *)

(** [re.sub(p, repl, s)] for a pattern that never matches the empty string:
    [p s] is the length of the (greedy) match of the pattern at the head of
    [s], when there is one.  The scan goes left to right; a match is replaced
    by [repl] and the scan resumes after it ([skip] counts the characters of
    the current match still to drop). *)
Fixpoint re_sub_from (p : text -> option nat) (repl : text)
    (skip : nat) (s : text) : text :=
  match s with
  | [] => []
  | c :: s' =>
      match skip with
      | S k => re_sub_from p repl k s'
      | O =>
          match p s with
          | Some (S k) => repl ++ re_sub_from p repl k s'
          | _ => c :: re_sub_from p repl O s'
          end
      end
  end.

Definition re_sub (p : text -> option nat) (repl s : text) : text :=
  re_sub_from p repl O s.

(** The number of leading characters of [s] that satisfy [f]: a greedy [x+]
    or [x*]. *)
Fixpoint span_length (f : N -> bool) (s : text) : nat :=
  match s with
  | c :: s' => if f c then S (span_length f s') else O
  | [] => O
  end.

(** The set between the first [[] and the first []] of
    [[^a-zA-Z0-9\s.,!?;:()[]@&]+]: [re] reads the second [[] as a member of
    the set and closes the set at the first []]. *)
Definition allowed_set (c : N) : bool :=
  is_lower c || is_upper c || is_digit c || isspace c
  || bool_decide (c ∈ str ".,!?;:()[").

(** [self.allowed_characters = re.compile(r'[^a-zA-Z0-9\s.,!?;:()[]@&]+')]:
    one character outside [allowed_set], then [@], then [&], then one or more
    []] (the [+] binds to the last []], which stands outside the set). *)
Definition allowed_characters (s : text) : option nat :=
  match s with
  | c :: 64 :: 38 :: s' =>
      if allowed_set c then None
      else match span_length (N.eqb 93) s' with
           | O => None
           | S n => Some (3 + S n)%nat
           end
  | _ => None
  end.

(** [r'\s+'] *)
Definition whitespace_run (s : text) : option nat :=
  match span_length isspace s with
  | O => None
  | n => Some n
  end.

(** [r'[^a-zA-Z0-9\s]'], the pattern of the channel-name clean-up. *)
Definition not_alnum_space (s : text) : option nat :=
  match s with
  | c :: _ =>
      if is_lower c || is_upper c || is_digit c || isspace c
      then None else Some 1%nat
  | [] => None
  end.

(** The literal [old] at the head of [s]: [str.replace(old, new)] is
    [re_sub (literal old) new]. *)
Fixpoint is_prefix (old s : text) : bool :=
  match old, s with
  | [], _ => true
  | a :: old', b :: s' => (a =? b) && is_prefix old' s'
  | _ :: _, [] => false
  end.

Definition literal (old : text) (s : text) : option nat :=
  if is_prefix old s then Some (length old) else None.

(** [str.replace(old, new)] for a non-empty [old]. *)
Definition str_replace (old new s : text) : text :=
  re_sub (literal old) new s.

(** The characters the specification's allow-list names: ASCII letters,
    digits, whitespace and [. , ! ? ; : ( ) [ ] @ &]. *)
Definition allow_listed (c : N) : bool :=
  is_lower c || is_upper c || is_digit c || isspace c
  || bool_decide (c ∈ str ".,!?;:()[]@&").

(** An ASCII letter, a digit or whitespace: what [[^a-zA-Z0-9\s]] does not
    match. *)
Definition alnum_space (c : N) : bool :=
  is_lower c || is_upper c || is_digit c || isspace c.

(** Every whitespace character of [s] is a space that follows a character
    that is not whitespace; [after_space] tells whether the character before
    [s] was whitespace (or [s] is the start of the text). *)
Fixpoint single_spaced (after_space : bool) (s : text) : bool :=
  match s with
  | [] => true
  | c :: s' =>
      if isspace c
      then (c =? 32) && negb after_space && single_spaced true s'
      else single_spaced false s'
  end.

(** A name in snake case: lower-case letters, digits and underscores. *)
Definition snake_case (c : text) : bool :=
  forallb (fun x => is_lower x || is_digit x || (x =? 95)) c.

(** Decimal digits of a number, most significant first: [str(n)]. *)
Fixpoint digits_from (fuel : nat) (n : N) (acc : text) : text :=
  match fuel with
  | O => acc
  | S fuel' =>
      let acc' := (48 + n mod 10) :: acc in
      if n <? 10 then acc' else digits_from fuel' (n / 10) acc'
  end.

Definition str_of_N (n : N) : text := digits_from (S (N.size_nat n)) n [].

Definition str_of_Z (z : Z) : text :=
  match z with
  | Zneg p => 45 :: str_of_N (Npos p)
  | _ => str_of_N (Z.to_N z)
  end.

(** [os.path.join(a, b)] (posixpath): an absolute [b] replaces [a]. *)
Definition path_join (a b : text) : text :=
  if is_prefix [47] b then b
  else match last a with
       | None | Some 47 => a ++ b
       | Some _ => a ++ 47 :: b
       end.

(** ** Tables *)

(** A cell.  [NaN] is the missing value of [read_csv], [NaT] the missing
    timestamp of [pd.to_datetime(..., errors='coerce')].  Numbers that are no
    integers and boolean columns are outside the model. *)
Inductive value : Type :=
  | NaN
  | Str (s : text)
  | Int (n : Z)
  | Timestamp (t : Z)
  | NaT.

#[global] Instance value_eq_dec : EqDecision value.
Proof. solve_decision. Defined.

Abbreviation row := (list value).

Record DataFrame : Type := mkDataFrame {
  columns : list text;
  rows : list row
}.

(** [pd.DataFrame()] *)
Definition empty_frame : DataFrame := mkDataFrame [] [].

(** [data.empty]: some axis has length 0. *)
Definition frame_empty (df : DataFrame) : bool :=
  match columns df, rows df with
  | [], _ | _, [] => true
  | _, _ => false
  end.

(** Column names of the input file (the class attributes). *)
Definition CHANNEL_ID : text := str "channel_id".
Definition CHANNEL_TITLE : text := str "Channel Title".
Definition CHANNEL_USERNAME : text := str "Channel Username".
Definition MESSAGE : text := str "Message".
Definition DATE : text := str "Date".
Definition ID : text := str "ID".
Definition Media_path : text := str "Media Path".

(** Position of a column label. *)
Fixpoint index_of (c : text) (cs : list text) : option nat :=
  match cs with
  | [] => None
  | c' :: cs' => if decide (c' = c) then Some O else S <$> index_of c cs'
  end.

(** The cell of a row in the column at position [i]; a row shorter than the
    header is padded with missing values, as [read_csv] does. *)
Definition cell (i : nat) (r : row) : value := default NaN (r !! i).

Definition column_at (i : nat) (df : DataFrame) : list value :=
  List.map (cell i) (rows df).

(** The cells of the column labelled [c], top to bottom (none when the table
    has no such column). *)
Definition column_cells (df : DataFrame) (c : text) : list value :=
  match index_of c (columns df) with
  | Some i => column_at i df
  | None => []
  end.

Definition isna (v : value) : bool :=
  match v with
  | NaN | NaT => true
  | _ => false
  end.

(** [data[mask]]: the rows whose mask entry is true. *)
Fixpoint boolean_index (mask : list bool) (rs : list row) : list row :=
  match mask, rs with
  | b :: mask', r :: rs' =>
      if b then r :: boolean_index mask' rs' else boolean_index mask' rs'
  | _, _ => []
  end.

(** [Series.duplicated(keep='first')]: an entry is marked when its value
    occurred earlier in the column; missing values count as equal. *)
Fixpoint duplicated_from (seen : list value) (vs : list value) : list bool :=
  match vs with
  | [] => []
  | v :: vs' => bool_decide (v ∈ seen) :: duplicated_from (v :: seen) vs'
  end.

Definition duplicated (vs : list value) : list bool := duplicated_from [] vs.

(** [data[c] = vals] for the column at position [i]. *)
Fixpoint assign_column (i : nat) (vals : list value) (rs : list row)
    : list row :=
  match vals, rs with
  | v :: vals', r :: rs' => <[i:=v]> r :: assign_column i vals' rs'
  | _, _ => rs
  end.

(** [fillna] of one column with the value [v]. *)
Definition fill_column (i : nat) (v : value) (rs : list row) : list row :=
  List.map (fun r => if isna (cell i r) then <[i:=v]> r else r) rs.

Definition with_rows (df : DataFrame) (rs : list row) : DataFrame :=
  mkDataFrame (columns df) rs.

(** ** Column types *)

(** The tables above hold cells only.  A table stands for the pandas table
    that has these cells and whose columns have the dtypes pandas infers
    from them, as [read_csv] does for the table of a file: [int64] for a
    column of integers, [float64] for a column of integers and missing
    values (pandas holds such an integer as a float), [datetime64] for a
    column of timestamps, [object] for any other column. *)
Inductive dtype : Type :=
  | int64
  | float64
  | datetime64
  | object.

Definition is_int (v : value) : bool :=
  match v with
  | Int _ => true
  | _ => false
  end.

Definition is_number (v : value) : bool :=
  match v with
  | Int _ | NaN => true
  | _ => false
  end.

Definition infer_dtype (vs : list value) : dtype :=
  match vs with
  | [] => object
  | _ =>
      if forallb is_int vs then int64
      else if forallb is_number vs then float64
      else if forallb (fun v => match v with
                                | Timestamp _ | NaT => true
                                | _ => false
                                end) vs
      then datetime64
      else object
  end.

(** [data.dtypes] *)
Definition frame_dtypes (df : DataFrame) : list dtype :=
  List.map (fun i => infer_dtype (column_at i df))
    (seq 0 (length (columns df))).

Definition is_numeric (d : dtype) : bool :=
  match d with
  | int64 | float64 => true
  | _ => false
  end.

Definition is_float64 (d : dtype) : bool :=
  match d with
  | float64 => true
  | _ => false
  end.

(** The rows of [iterrows()] are the rows of [data.values], an array of one
    dtype: [float64] when every column is numeric and one of them is
    [float64]. *)
Definition row_is_float (dtypes : list dtype) : bool :=
  forallb is_numeric dtypes && existsb is_float64 dtypes.

(** What [row[c]] is for a row of [iterrows()]: the cell as the table holds
    it, or the float that an integer has become. *)
Inductive scalar : Type :=
  | Cell (v : value)
  | Float (n : Z).

(** The cell [v] of the column at position [i] in a row of [iterrows()],
    for a table whose columns have the dtypes [dtypes]: an integer is a
    float in a [float64] column and in a [float64] row. *)
Definition upcast (dtypes : list dtype) (i : nat) (v : value) : scalar :=
  match v with
  | Int n =>
      if row_is_float dtypes || is_float64 (default object (dtypes !! i))
      then Float n else Cell v
  | _ => Cell v
  end.

(** ** Exceptions *)

Inductive exn : Type :=
  | KeyError (key : text)
  | AttributeError
  | TypeError
  | FileNotFoundError
  | IsADirectoryError
  | PermissionError
  | OSError
  | ParserError
  | DanglingReference.

Inductive outcome (A : Type) : Type :=
  | Ok (a : A)
  | Raise (e : exn).

Arguments Ok {A} a.
Arguments Raise {A} e.

(** [data[c]]: [KeyError] when the table has no column [c]. *)
Definition getitem (df : DataFrame) (c : text) : outcome (list value) :=
  match index_of c (columns df) with
  | Some i => Ok (column_at i df)
  | None => Raise (KeyError c)
  end.

(** [row[c]] for a row of [df.iterrows()], the columns of [df] having the
    dtypes [dtypes]. *)
Definition row_getitem (dtypes : list dtype) (df : DataFrame) (r : row)
    (c : text) : outcome scalar :=
  match index_of c (columns df) with
  | Some i => Ok (upcast dtypes i (cell i r))
  | None => Raise (KeyError c)
  end.

(** The [.str] accessor of a column: pandas raises [AttributeError] on a
    column that holds numbers or timestamps.  A column of missing values
    only is taken for an [object] column, which it is in a table that a
    filter has left without its strings; on a [float64] column of missing
    values pandas raises as well. *)
Definition str_accessor (vs : list value) : outcome (list value) :=
  if forallb (fun v => match v with Str _ | NaN => true | _ => false end) vs
  then Ok vs else Raise AttributeError.

(** [.str.len()]: the length of a string, missing for a missing value. *)
Definition str_len (v : value) : option nat :=
  match v with
  | Str s => Some (length s)
  | _ => None
  end.

#[global] Instance outcome_ret : MRet outcome := fun A a => Ok a.
#[global] Instance outcome_bind : MBind outcome := fun A B f m =>
  match m with
  | Ok a => f a
  | Raise e => Raise e
  end.

(** [Series.apply(f)] *)
Fixpoint series_apply (f : value -> outcome value) (vs : list value)
    : outcome (list value) :=
  match vs with
  | [] => Ok []
  | v :: vs' => v' ← f v; vs'' ← series_apply f vs'; Ok (v' :: vs'')
  end.

(** A method of the [.str] accessor, [f] on every string of the column;
    missing values stay missing. *)
Definition str_method (f : text -> text) (vs : list value)
    : outcome (list value) :=
  vs' ← str_accessor vs;
  Ok (List.map (fun v => match v with Str s => Str (f s) | _ => v end) vs').

(** ** The world: objects, files, log *)

(** A reference to a DataFrame object. *)
Abbreviation loc := nat.

Inductive contents : Type :=
  | Csv (df : DataFrame)   (* a file that [pd.read_csv] parses to [df] *)
  | Opaque.                (* any other file, an image for instance *)

Inductive node : Type :=
  | File (c : contents)
  | Directory.

(** The messages the cleaner hands to its logger. *)
Inductive message : Type :=
  | DataLoaded (n_rows n_columns : nat)
  | FileNotFound
  | LoadFailed (e : exn)
  | DuplicatesRemoved (n_rows n_columns : nat)
  | RemovedImage (image_path : text)
  | ErrorRemovingImage (image_path : text) (e : exn)
  | MissingValuesHandled
  | FormatsStandardized
  | ValidationCompleted
  | CleanedDataSaved (cleaned_file_path : text)
  | NoDataLoaded
  | CleaningCompleted
  | CleaningFailed (e : exn).

Inductive log_entry : Type :=
  | LogInfo (m : message)
  | LogError (m : message).

Record World : Type := mkWorld {
  heap : list DataFrame;
  fs : gmap text node;
  log : list log_entry
}.

Definition set_heap (w : World) (h : list DataFrame) : World :=
  mkWorld h (fs w) (log w).
Definition set_fs (w : World) (f : gmap text node) : World :=
  mkWorld (heap w) f (log w).
Definition add_log (w : World) (e : log_entry) : World :=
  mkWorld (heap w) (fs w) (log w ++ [e]).

(** A computation: it ends with a result or a raised exception, in a new
    world (what was done before an exception stays done). *)
Definition M (A : Type) : Type := World -> outcome A * World.

#[global] Instance M_ret : MRet M := fun A a w => (Ok a, w).
#[global] Instance M_bind : MBind M := fun A B f m w =>
  match m w with
  | (Ok a, w') => f a w'
  | (Raise e, w') => (Raise e, w')
  end.

Definition raise {A : Type} (e : exn) : M A := fun w => (Raise e, w).

Definition lift {A : Type} (o : outcome A) : M A := fun w => (o, w).

(** [try: body / except Exception as e: handler e] *)
Definition try_except {A : Type} (body : M A) (handler : exn -> M A) : M A :=
  fun w =>
    match body w with
    | (Ok a, w') => (Ok a, w')
    | (Raise e, w') => handler e w'
    end.

(** [for x in xs: body x] *)
Fixpoint for_each {A : Type} (xs : list A) (body : A -> M unit) : M unit :=
  match xs with
  | [] => mret tt
  | x :: xs' => body x;; for_each xs' body
  end.

Definition logger_info (m : message) : M unit :=
  fun w => (Ok tt, add_log w (LogInfo m)).
Definition logger_error (m : message) : M unit :=
  fun w => (Ok tt, add_log w (LogError m)).

(** A new DataFrame object. *)
Definition new_frame (df : DataFrame) : M loc :=
  fun w => (Ok (length (heap w)), set_heap w (heap w ++ [df])).

Definition read_frame (data : loc) : M DataFrame :=
  fun w =>
    match heap w !! data with
    | Some df => (Ok df, w)
    | None => (Raise DanglingReference, w)
    end.

(** A mutation of the object behind [data]. *)
Definition write_frame (data : loc) (df : DataFrame) : M unit :=
  fun w => (Ok tt, set_heap w (<[data:=df]> (heap w))).

(** [pd.read_csv(file_path)] *)
Definition read_csv (file_path : text) : M loc :=
  fun w =>
    match fs w !! file_path with
    | None => (Raise FileNotFoundError, w)
    | Some Directory => (Raise IsADirectoryError, w)
    | Some (File Opaque) => (Raise ParserError, w)
    | Some (File (Csv df)) => new_frame df w
    end.

(** [os.path.exists(path)] *)
Definition path_exists (path : text) : M bool :=
  fun w => (Ok (bool_decide (is_Some (fs w !! path))), w).

(** ** Third-party behaviour *)

Definition is_datetime (v : value) : bool :=
  match v with
  | Timestamp _ | NaT => true
  | _ => false
  end.

(** A label that [read_csv] may have made up: it gives a label that occurs
    in the header a second time a suffix ([c.1]), and a column without a
    label the label [Unnamed: 0] with its position. *)
Definition mangled (c : text) : bool :=
  existsb (N.eqb 46) c || is_prefix (str "Unnamed: ") c.

(** What the module uses of [emoji], [pandas], [str] and the operating
    system that the repository does not define, with the facts about it that
    the proofs rely on. *)
Class PyLib : Type := {
  (** [emoji.replace_emoji(text, replace='')]; no emoji is made of ASCII
      characters alone. *)
  replace_emoji : text -> text;
  replace_emoji_ascii :
    forall s, forallb is_ascii s = true -> replace_emoji s = s;
  (** [str.lower()] *)
  lower : text -> text;
  lower_ascii :
    forall s, forallb is_ascii s = true -> lower s = List.map to_lower s;
  (** [pd.to_datetime(column, errors='coerce')] *)
  to_datetime : list value -> list value;
  to_datetime_length : forall vs, length (to_datetime vs) = length vs;
  to_datetime_type : forall vs, forallb is_datetime (to_datetime vs) = true;
  (** [str(t)] for a timestamp *)
  format_timestamp : Z -> text;
  (** [str(float(n))]: the digits of [n] and [.0] as long as the float holds
      [n] exactly; beyond that Python rounds and writes an exponent. *)
  format_float : Z -> text;
  format_float_exact :
    forall n, (Z.abs n <= 2 ^ 53)%Z -> format_float n = str_of_Z n ++ str ".0";
  (** The error, if any, with which the operating system refuses to remove
      the file at a path, or to open one for writing: permissions, a
      read-only file system, a missing parent directory. *)
  remove_error : gmap text node -> text -> option exn;
  open_error : gmap text node -> text -> option exn;
  (** What [pd.read_csv] reads from the file that
      [DataFrame.to_csv(path, index=False)] wrote: the number of rows is
      kept, every label of the header comes back as it is or as [read_csv]
      renames it, the cells come back as the CSV text reads. *)
  read_back : DataFrame -> DataFrame;
  read_back_columns :
    forall df,
      columns df <> [] ->
      Forall2 (fun c c' => c' = c \/ mangled c' = true)
        (columns df) (columns (read_back df));
  read_back_rows : forall df, length (rows (read_back df)) = length (rows df)
}.

(** ** The cleaner *)

Section DataCleaner.
Context {L : PyLib}.

(** [os.remove(path)] *)
Definition os_remove (path : text) : M unit :=
  fun w =>
    match fs w !! path with
    | Some (File _) =>
        match remove_error (fs w) path with
        | Some e => (Raise e, w)
        | None => (Ok tt, set_fs w (delete path (fs w)))
        end
    | Some Directory => (Raise IsADirectoryError, w)
    | None => (Raise FileNotFoundError, w)
    end.

(** [open(path, 'w')] and the writing of [c]: the file is created, or
    overwritten when it exists; a directory and the empty path cannot be
    opened. *)
Definition write_file (path : text) (c : contents) : M unit :=
  fun w =>
    match fs w !! path with
    | Some Directory => (Raise IsADirectoryError, w)
    | _ =>
        match path with
        | [] => (Raise FileNotFoundError, w)
        | _ =>
            match open_error (fs w) path with
            | Some e => (Raise e, w)
            | None => (Ok tt, set_fs w (<[path:=File c]> (fs w)))
            end
        end
    end.

(** [DataCleaner.load_data] *)
Definition load_data (file_path : text) : M loc :=
  try_except
    (data ← read_csv file_path;
     df ← read_frame data;
     logger_info (DataLoaded (length (rows df)) (length (columns df)));;
     mret data)
    (fun e =>
       match e with
       | FileNotFoundError =>
           logger_error FileNotFound;; new_frame empty_frame
       | _ =>
           logger_error (LoadFailed e);; new_frame empty_frame
       end).

(** [data.duplicated(subset=c, keep='first')] *)
Definition frame_duplicated (df : DataFrame) (c : text) : outcome (list bool) :=
  vs ← getitem df c; Ok (duplicated vs).

(** [data.drop_duplicates(subset=c, keep='first')] *)
Definition drop_duplicates (df : DataFrame) (c : text) : outcome DataFrame :=
  mask ← frame_duplicated df c;
  Ok (with_rows df (boolean_index (List.map negb mask) (rows df))).

(** [str(x)], as the f-string of the image name renders what it gets from
    the row. *)
Definition format_value (x : scalar) : text :=
  match x with
  | Cell NaN => str "nan"
  | Cell (Str s) => s
  | Cell (Int n) => str_of_Z n
  | Cell (Timestamp t) => format_timestamp t
  | Cell NaT => str "NaT"
  | Float n => format_float n
  end.

(** [f"{channel_username}_{message_id}.jpg"] joined to the directory. *)
Definition image_path_of (image_directory : text)
    (channel_username message_id : scalar) : text :=
  let image_name :=
    format_value channel_username ++ str "_" ++ format_value message_id
      ++ str ".jpg" in
  path_join image_directory image_name.

(** The body of the loop of [_remove_duplicate_images]. *)
Definition remove_image_of (dtypes : list dtype) (df : DataFrame)
    (image_directory : text) (r : row) : M unit :=
  channel_username ← lift (row_getitem dtypes df r CHANNEL_USERNAME);
  message_id ← lift (row_getitem dtypes df r ID);
  let image_path := image_path_of image_directory channel_username message_id in
  present ← path_exists image_path;
  if present : bool then
    try_except
      (os_remove image_path;; logger_info (RemovedImage image_path))
      (fun e => logger_error (ErrorRemovingImage image_path e))
  else mret tt.

(** [DataCleaner._remove_duplicate_images].  [dtypes] are the dtypes of the
    columns of [duplicates]: they are a part of the pandas object that the
    table in the heap does not hold, and they cannot be read from its cells,
    since a table that [data[mask]] builds has the dtypes of [data],
    whatever rows it keeps. *)
Definition _remove_duplicate_images (duplicates : loc) (dtypes : list dtype)
    (image_directory : text) : M unit :=
  df ← read_frame duplicates;
  for_each (rows df) (remove_image_of dtypes df image_directory).

(** [DataCleaner.remove_duplicates] *)
Definition remove_duplicates (data : loc) (image_directory : text) : M loc :=
  df ← read_frame data;
  mask ← lift (frame_duplicated df ID);
  duplicates ← new_frame (with_rows df (boolean_index mask (rows df)));
  kept ← lift (drop_duplicates df ID);
  data ← new_frame kept;
  logger_info (DuplicatesRemoved (length (rows kept)) (length (columns kept)));;
  _remove_duplicate_images duplicates (frame_dtypes df) image_directory;;
  mret data.

(** [data.fillna({c: v, ...})]: labels that are no column are skipped. *)
Definition fillna (values : list (text * value)) (df : DataFrame) : DataFrame :=
  foldl
    (fun df cv =>
       match index_of cv.1 (columns df) with
       | Some i => with_rows df (fill_column i cv.2 (rows df))
       | None => df
       end)
    df values.

(** [DataCleaner.handle_missing_values]: in place. *)
Definition handle_missing_values (data : loc) : M loc :=
  df ← read_frame data;
  write_frame data
    (fillna [ (CHANNEL_USERNAME, Str (str "Unknown"));
              (MESSAGE, Str (str "N/A"));
              (DATE, Str (str "1970-01-01 00:00:00")) ] df);;
  logger_info MissingValuesHandled;;
  mret data.

(** [DataCleaner.clean_message_content] *)
Definition clean_message_content (s : text) : text :=
  let s := replace_emoji s in
  let s := re_sub allowed_characters [] s in
  let s := re_sub whitespace_run (str " ") s in
  strip s.

(** [clean_message_content] under [Series.apply]: it raises on a cell that is
    no string. *)
Definition clean_message_cell (v : value) : outcome value :=
  match v with
  | Str s => Ok (Str (clean_message_content s))
  | _ => Raise TypeError
  end.

(** [data[MESSAGE].apply(self.clean_message_content).str.lower().str.strip()] *)
Definition standardize_messages (vs : list value) : outcome (list value) :=
  vs ← series_apply clean_message_cell vs;
  vs ← str_method lower vs;
  str_method strip vs.

(** [data[CHANNEL_USERNAME].str.replace(r'[^a-zA-Z0-9\s]', '', regex=True)
      .str.strip().str.title()] *)
Definition standardize_usernames (vs : list value) : outcome (list value) :=
  vs ← str_method (re_sub not_alnum_space []) vs;
  vs ← str_method strip vs;
  str_method title vs.

(** [if c in data.columns: data[c] = f(data[c])], in place. *)
Definition update_column (data : loc) (c : text)
    (f : list value -> outcome (list value)) : M unit :=
  df ← read_frame data;
  match index_of c (columns df) with
  | Some i =>
      vals ← lift (f (column_at i df));
      write_frame data (with_rows df (assign_column i vals (rows df)))
  | None => mret tt
  end.

(** [DataCleaner.standardize_formats]: in place, column by column. *)
Definition standardize_formats (data : loc) : M loc :=
  update_column data DATE (fun vs => Ok (to_datetime vs));;
  update_column data MESSAGE standardize_messages;;
  update_column data CHANNEL_USERNAME standardize_usernames;;
  logger_info FormatsStandardized;;
  mret data.

(** [data.dropna(subset=[c])] *)
Definition dropna (df : DataFrame) (c : text) : outcome DataFrame :=
  vs ← getitem df c;
  Ok (with_rows df
        (boolean_index (List.map (fun v => negb (isna v)) vs) (rows df))).

(** [data[c].str.len() <= n]; the comparison is false on a missing length. *)
Definition len_le (n : nat) (v : value) : bool :=
  match str_len v with
  | Some k => Nat.leb k n
  | None => false
  end.

(** [data[c].str.len() > n] *)
Definition len_gt (n : nat) (v : value) : bool :=
  match str_len v with
  | Some k => Nat.ltb n k
  | None => false
  end.

(** [data[test(data[c].str.len())]] *)
Definition filter_by_len (df : DataFrame) (c : text) (test : value -> bool)
    : outcome DataFrame :=
  vs ← getitem df c;
  vs ← str_accessor vs;
  Ok (with_rows df (boolean_index (List.map test vs) (rows df))).

(** [DataCleaner.validate_data]: every step builds a new table. *)
Definition validate_data (data : loc) : M loc :=
  df ← read_frame data;
  df ← lift (dropna df DATE);
  data ← new_frame df;
  data ← (if bool_decide (MESSAGE ∈ columns df)
          then df ← lift (filter_by_len df MESSAGE (len_le 1000));
               new_frame df
          else mret data);
  df ← read_frame data;
  df ← lift (filter_by_len df CHANNEL_USERNAME (len_gt 0));
  data ← new_frame df;
  logger_info ValidationCompleted;;
  mret data.

(** The [column_mapping] dictionary of [save_cleaned_data]. *)
Definition column_mapping : gmap text text :=
  list_to_map
    [ (CHANNEL_ID, str "channel_id");
      (CHANNEL_USERNAME, str "channel_username");
      (CHANNEL_TITLE, str "channel_title");
      (ID, str "message_id");
      (MESSAGE, str "Message");
      (DATE, str "date");
      (Media_path, str "media_path") ].

(** [data.rename(columns=column_mapping)]: a label the dictionary does not
    list stays. *)
Definition rename_column (c : text) : text := default c (column_mapping !! c).

Definition rename (df : DataFrame) : DataFrame :=
  mkDataFrame (List.map rename_column (columns df)) (rows df).

(** [file_path.replace('.csv', '_cleaned.csv')] *)
Definition cleaned_path (file_path : text) : text :=
  str_replace (str ".csv") (str "_cleaned.csv") file_path.

(** [data.to_csv(path, index=False)]: the file is created or overwritten. *)
Definition to_csv (data : loc) (path : text) : M unit :=
  df ← read_frame data;
  write_file path (Csv (read_back df)).

(** [DataCleaner.save_cleaned_data]: the rename is in place, on the caller's
    object. *)
Definition save_cleaned_data (data : loc) (file_path : text) : M unit :=
  df ← read_frame data;
  write_frame data (rename df);;
  let cleaned_file_path := cleaned_path file_path in
  to_csv data cleaned_file_path;;
  logger_info (CleanedDataSaved cleaned_file_path).

(** The [try] block of [clean_telegram_data]. *)
Definition cleaning_steps (file_path image_directory : text) : M loc :=
  data ← load_data file_path;
  df ← read_frame data;
  if frame_empty df then
    logger_error NoDataLoaded;;
    mret data
  else
    data ← remove_duplicates data image_directory;
    data ← handle_missing_values data;
    data ← standardize_formats data;
    data ← validate_data data;
    save_cleaned_data data file_path;;
    logger_info CleaningCompleted;;
    mret data.

(** [DataCleaner.clean_telegram_data] *)
Definition clean_telegram_data (file_path image_directory : text) : M loc :=
  try_except
    (cleaning_steps file_path image_directory)
    (fun e => logger_error (CleaningFailed e);; new_frame empty_frame).

End DataCleaner.

(** ** The methods read as functions on tables

    What each method computes from the table behind its argument, without
    the heap, the files and the log.  The theorems of the second half relate
    the methods to these functions. *)

Section Functional.
Context {L : PyLib}.

(** [row[c]] with a missing value for a label that is no column. *)
Definition row_cell (df : DataFrame) (r : row) (c : text) : value :=
  match index_of c (columns df) with
  | Some i => cell i r
  | None => NaN
  end.

(** [row[c]] for a row of [df.iterrows()] or of the rows of a table that
    [df[mask]] builds, with a missing value for a label that is no
    column. *)
Definition row_scalar (df : DataFrame) (r : row) (c : text) : scalar :=
  match index_of c (columns df) with
  | Some i => upcast (frame_dtypes df) i (cell i r)
  | None => Cell NaN
  end.

(** The side-file of a row: [<channel-username>_<identifier>.jpg] in the
    image directory, the two cells rendered as the f-string renders them. *)
Definition side_file (df : DataFrame) (image_directory : text) (r : row)
    : text :=
  image_path_of image_directory (row_scalar df r CHANNEL_USERNAME)
    (row_scalar df r ID).

(** The rows [remove_duplicates] removes. *)
Definition removed_rows (df : DataFrame) : list row :=
  boolean_index (duplicated (column_cells df ID)) (rows df).

(** The error with which [write_file] fails at [path], if it does. *)
Definition write_failure (f : gmap text node) (path : text) : option exn :=
  match f !! path with
  | Some Directory => Some IsADirectoryError
  | _ =>
      match path with
      | [] => Some FileNotFoundError
      | _ => open_error f path
      end
  end.

Definition update_table (c : text) (f : list value -> outcome (list value))
    (df : DataFrame) : outcome DataFrame :=
  match index_of c (columns df) with
  | Some i =>
      vals ← f (column_at i df);
      Ok (with_rows df (assign_column i vals (rows df)))
  | None => Ok df
  end.

Definition filled (df : DataFrame) : DataFrame :=
  fillna [ (CHANNEL_USERNAME, Str (str "Unknown"));
           (MESSAGE, Str (str "N/A"));
           (DATE, Str (str "1970-01-01 00:00:00")) ] df.

Definition standardized (df : DataFrame) : outcome DataFrame :=
  df ← update_table DATE (fun vs => Ok (to_datetime vs)) df;
  df ← update_table MESSAGE standardize_messages df;
  update_table CHANNEL_USERNAME standardize_usernames df.

Definition validated (df : DataFrame) : outcome DataFrame :=
  df ← dropna df DATE;
  df ← (if bool_decide (MESSAGE ∈ columns df)
        then filter_by_len df MESSAGE (len_le 1000) else Ok df);
  filter_by_len df CHANNEL_USERNAME (len_gt 0).

(** The table a completed run returns, from the table it loaded. *)
Definition cleaned (df : DataFrame) : outcome DataFrame :=
  df ← drop_duplicates df ID;
  df ← standardized (filled df);
  df ← validated df;
  Ok (rename df).

(** The three tests of the validator on a row of [df]. *)
Definition date_present (df : DataFrame) (r : row) : bool :=
  negb (isna (row_cell df r DATE)).
Definition message_bounded (df : DataFrame) (r : row) : bool :=
  len_le 1000 (row_cell df r MESSAGE).
Definition username_present (df : DataFrame) (r : row) : bool :=
  len_gt 0 (row_cell df r CHANNEL_USERNAME).

End Functional.

(** The table [load_data] returns for [file_path]. *)
Definition loaded (w : World) (file_path : text) : DataFrame :=
  match fs w !! file_path with
  | Some (File (Csv df)) => df
  | _ => empty_frame
  end.

(** How a run of [clean_telegram_data] ended, read from the last line of the
    log. *)
Definition completed (w : World) : Prop :=
  last (log w) = Some (LogInfo CleaningCompleted).

(** ** Cells and paths *)

(** Every row has a cell for every column, as in a table that [read_csv]
    returns. *)
Definition rectangular (df : DataFrame) : Prop :=
  Forall (fun r : row => length r = length (columns df)) (rows df).


(** The cell in position [i] of the row is not missing, or the row has no
    such cell. *)
Definition settled (i : nat) (r : row) : Prop :=
  isna (cell i r) = false \/ (length r <= i)%nat.

Definition is_str (v : value) : bool :=
  match v with
  | Str _ => true
  | _ => false
  end.

(** A function on strings applied to a cell, as the [.str] methods apply
    it: a missing value stays. *)
Definition on_str (f : text -> text) (v : value) : value :=
  match v with
  | Str s => Str (f s)
  | _ => v
  end.


Section MessageText.
Context {L : PyLib}.

(** The message text that [standardize_formats] writes for [s]. *)
Definition standardize_message (s : text) : text :=
  strip (lower (clean_message_content s)).

End MessageText.


(** ** A reference instance of the third-party interface *)

(** Code points of the pictographic blocks: Miscellaneous Symbols and
    Dingbats (U+2600..U+27BF) and the supplementary pictographs
    (U+1F000..U+1FAFF). *)
Definition pictographic (c : N) : bool :=
  ((9728 <=? c) && (c <=? 10175)) || ((126976 <=? c) && (c <=? 129791)).

(** The 19-character form [YYYY-MM-DD HH:MM:SS]. *)
Definition iso_shaped (s : text) : bool :=
  match s with
  | [y1; y2; y3; y4; 45; m1; m2; 45; d1; d2; 32; h1; h2; 58; i1; i2; 58; s1; s2] =>
      forallb is_digit [y1; y2; y3; y4; m1; m2; d1; d2; h1; h2; i1; i2; s1; s2]
  | _ => false
  end.

(** The digits of a text read as one number. *)
Definition digits_value (s : text) : Z :=
  foldl (fun acc c => if is_digit c then (10 * acc + Z.of_N (c - 48))%Z else acc)
    0%Z s.

Definition reference_to_datetime (v : value) : value :=
  match v with
  | Str s => if iso_shaped s then Timestamp (digits_value s) else NaT
  | Timestamp t => Timestamp t
  | _ => NaT
  end.

Definition reference_read_back_cell (v : value) : value :=
  match v with
  | Timestamp t => Str (str_of_Z t)
  | NaT | Str [] => NaN
  | _ => v
  end.

Definition reference_read_back (df : DataFrame) : DataFrame :=
  with_rows df (List.map (List.map reference_read_back_cell) (rows df)).

Lemma reference_read_back_columns df :
  columns df <> [] ->
  Forall2 (fun c c' => c' = c \/ mangled c' = true)
    (columns df) (columns (reference_read_back df)).
Proof.
  intros _. unfold reference_read_back. cbn [columns with_rows].
  induction (columns df) as [|c cs IH]; constructor; auto.
Qed.

Lemma ascii_not_pictographic c : is_ascii c = true -> pictographic c = false.
Proof.
  unfold is_ascii, pictographic. intros H%N.ltb_lt.
  destruct (N.leb_spec 9728 c); [lia|].
  destruct (N.leb_spec 126976 c); [lia|]. reflexivity.
Qed.

Lemma filter_pictographic_ascii s :
  forallb is_ascii s = true ->
  List.filter (fun c => negb (pictographic c)) s = s.
Proof.
  induction s as [|c s IH]; simpl; [reflexivity|].
  intros [Hc Hs]%andb_prop. rewrite (ascii_not_pictographic c Hc). simpl.
  f_equal. exact (IH Hs).
Qed.

Lemma reference_to_datetime_type vs :
  forallb is_datetime (List.map reference_to_datetime vs) = true.
Proof.
  induction vs as [|v vs IH]; simpl; [reflexivity|].
  rewrite IH, andb_true_r.
  destruct v as [|s| | |]; simpl; try reflexivity.
  destruct (iso_shaped s); reflexivity.
Qed.

(** The instance the concrete runs below are evaluated with: it deletes the
    pictographic code points, lower-cases ASCII letters, parses the ISO form
    of a date, reads a table back from CSV with its timestamps as text and
    its empty cells missing, and has an operating system that refuses
    nothing. *)
Definition reference_lib : PyLib := {|
  replace_emoji := List.filter (fun c => negb (pictographic c));
  replace_emoji_ascii := filter_pictographic_ascii;
  lower := List.map to_lower;
  lower_ascii := fun s _ => eq_refl;
  to_datetime := List.map reference_to_datetime;
  to_datetime_length := fun vs => List.length_map reference_to_datetime vs;
  to_datetime_type := reference_to_datetime_type;
  format_timestamp := str_of_Z;
  format_float := fun n => str_of_Z n ++ str ".0";
  format_float_exact := fun n _ => eq_refl;
  remove_error := fun _ _ => None;
  open_error := fun _ _ => None;
  read_back := reference_read_back;
  read_back_columns := reference_read_back_columns;
  read_back_rows := fun df =>
    List.length_map (List.map reference_read_back_cell) (rows df)
|}.

(** The same instance with an operating system that refuses every removal
    and every write. *)
Definition refusing_lib : PyLib := {|
  replace_emoji := List.filter (fun c => negb (pictographic c));
  replace_emoji_ascii := filter_pictographic_ascii;
  lower := List.map to_lower;
  lower_ascii := fun s _ => eq_refl;
  to_datetime := List.map reference_to_datetime;
  to_datetime_length := fun vs => List.length_map reference_to_datetime vs;
  to_datetime_type := reference_to_datetime_type;
  format_timestamp := str_of_Z;
  format_float := fun n => str_of_Z n ++ str ".0";
  format_float_exact := fun n _ => eq_refl;
  remove_error := fun _ _ => Some PermissionError;
  open_error := fun _ _ => Some PermissionError;
  read_back := reference_read_back;
  read_back_columns := reference_read_back_columns;
  read_back_rows := fun df =>
    List.length_map (List.map reference_read_back_cell) (rows df)
|}.

(** ** Sample data for the concrete runs *)

Definition input_columns : list text :=
  [CHANNEL_ID; CHANNEL_USERNAME; CHANNEL_TITLE; ID; MESSAGE; DATE; Media_path].

Definition output_columns : list text :=
  [str "channel_id"; str "channel_username"; str "channel_title";
   str "message_id"; str "Message"; str "date"; str "media_path"].

(** One message of channel [ChannelA] with identifier 5. *)
Definition sample_row : row :=
  [Int 1001; Str (str "ChannelA"); Str (str "Channel A"); Int 5;
   Str (str "Hello"); Str (str "2024-01-02 03:04:05");
   Str (str "photos/ChannelA_5.jpg")].

Definition sample_table : DataFrame := mkDataFrame input_columns [sample_row].

(** The same message exported twice. *)
Definition doubled_table : DataFrame :=
  mkDataFrame input_columns [sample_row; sample_row].

Definition photos : text := str "photos/".

(** A world with the table [df] in the file [path] and the image of
    [sample_row] in the image directory. *)
Definition sample_world (path : text) (df : DataFrame) : World :=
  mkWorld []
    (<[path:=File (Csv df)]>
       (<[str "photos/ChannelA_5.jpg":=File Opaque]> ∅))
    [].

(** The message of the specification's scenario; U+1F389 is the party
    popper. *)
Definition great_news : text :=
  str "Great news!! " ++ [127881; 127881] ++ str " visit https://x ".

(** The same world with the table already loaded, as object 0: the world a
    single stage is run in. *)
Definition stage_world (df : DataFrame) : World :=
  set_heap (sample_world (str "data.csv") df) [df].

(** A standardized table: a valid row, a row whose date did not parse, a row
    whose channel name is empty. *)
Definition valid_row : row :=
  [Int 1001; Str (str "Channela"); Str (str "Channel A"); Int 5;
   Str (str "hello"); Timestamp 20240102030405; NaN].

Definition undated_row : row :=
  [Int 1001; Str (str "Channela"); Str (str "Channel A"); Int 6;
   Str (str "hello"); NaT; NaN].

Definition unnamed_row : row :=
  [Int 1001; Str []; Str (str "Channel A"); Int 7;
   Str (str "hello"); Timestamp 20240102030405; NaN].

Definition standardized_table : DataFrame :=
  mkDataFrame input_columns [valid_row; undated_row; unnamed_row].

(** The run of the cleaner on [data.csv] holding [sample_table]. *)
Definition sample_run : outcome loc * World :=
  clean_telegram_data (L := reference_lib) (str "data.csv") photos
    (sample_world (str "data.csv") sample_table).


(** [sample_row] as the cleaner returns it. *)
Definition cleaned_sample_row : row :=
  [Int 1001; Str (str "Channela"); Str (str "Channel A"); Int 5;
   Str (str "hello"); Timestamp 20240102030405;
   Str (str "photos/ChannelA_5.jpg")].

(** A table with a row whose channel username, message and date are
    missing. *)
Definition gapped_row : row :=
  [Int 1001; NaN; Str (str "Channel A"); Int 8; NaN; NaN; NaN].

Definition gapped_table : DataFrame :=
  mkDataFrame input_columns [sample_row; gapped_row].

(** A table whose message column holds a number. *)
Definition numeric_row : row :=
  [Int 1001; Str (str "ChannelA"); Str (str "Channel A"); Int 9;
   Int 42; Str (str "2024-01-02 03:04:05"); NaN].

Definition numeric_table : DataFrame := mkDataFrame input_columns [numeric_row].

(** Tables with numeric columns: an identifier column beside a channel
    username column that is all missing, beside one that holds a string in
    a row that stays, and an identifier column with a missing value beside
    channel usernames. *)
Definition numbers_table : DataFrame :=
  mkDataFrame [ID; CHANNEL_USERNAME] [[Int 5; NaN]; [Int 5; NaN]].

Definition named_once_table : DataFrame :=
  mkDataFrame [ID; CHANNEL_USERNAME]
    [[Int 1; Str (str "a")]; [Int 2; NaN]; [Int 2; NaN]].

Definition unnumbered_table : DataFrame :=
  mkDataFrame [ID; CHANNEL_USERNAME]
    [[Int 5; Str (str "a")]; [Int 5; Str (str "a")]; [NaN; Str (str "b")]].

(** A world with the table [df] as object 0 and the two images that a row
    with the identifier 5 may name. *)
Definition numbers_world (df : DataFrame) : World :=
  mkWorld [df]
    (<[str "photos/nan_5.0.jpg":=File Opaque]>
       (<[str "photos/nan_5.jpg":=File Opaque]>
          (<[str "photos/a_5.0.jpg":=File Opaque]>
             (<[str "photos/a_5.jpg":=File Opaque]> ∅))))
    [].

(** The stage world with a directory at the cleaned path of [data.csv]. *)
Definition blocked_world (df : DataFrame) : World :=
  set_fs (stage_world df)
    (<[str "data_cleaned.csv":=Directory]> (fs (stage_world df))).



Definition validated_stage : outcome loc * World :=
  validate_data 0 (stage_world standardized_table).

(** * Properties *)

(** ** Columns and cells *)

Lemma index_of_lookup c cs i : index_of c cs = Some i -> cs !! i = Some c.
Proof.
  revert i. induction cs as [|c' cs IH]; intros i; simpl; [discriminate|].
  destruct (decide (c' = c)) as [->|_].
  - intros [= <-]. reflexivity.
  - destruct (index_of c cs) as [j|]; simpl; [|discriminate].
    intros [= <-]. simpl. apply IH. reflexivity.
Qed.

Lemma index_of_None c cs : index_of c cs = None <-> c ∉ cs.
Proof.
  induction cs as [|c' cs IH]; simpl.
  - split; [intros _; apply not_elem_of_nil | reflexivity].
  - destruct (decide (c' = c)) as [->|Hne].
    + split; [discriminate | intros []; left].
    + rewrite not_elem_of_cons, <- IH.
      destruct (index_of c cs); simpl; split; try discriminate; try tauto.
      * intros [_ [=]].
      * intros _. split; [congruence | reflexivity].
Qed.

Lemma index_of_elem c cs : c ∈ cs -> exists i, index_of c cs = Some i.
Proof.
  intros Hin. destruct (index_of c cs) as [i|] eqn:E; [eauto|].
  apply index_of_None in E. contradiction.
Qed.

Lemma index_of_inj c c' cs i :
  index_of c cs = Some i -> index_of c' cs = Some i -> c = c'.
Proof.
  intros H1%index_of_lookup H2%index_of_lookup. congruence.
Qed.

Lemma cell_insert_ne i j v (r : row) : i <> j -> cell i (<[j:=v]> r) = cell i r.
Proof. intros Hne. unfold cell. rewrite list_lookup_insert_ne by auto. reflexivity. Qed.

Lemma column_assign_ne i j vals rs :
  i <> j -> List.map (cell i) (assign_column j vals rs) = List.map (cell i) rs.
Proof.
  intros Hne. revert vals. induction rs as [|r rs IH]; intros [|v vals]; simpl; try reflexivity.
  rewrite cell_insert_ne by exact Hne. f_equal. apply IH.
Qed.

Lemma column_fill_ne i j v rs :
  i <> j -> List.map (cell i) (fill_column j v rs) = List.map (cell i) rs.
Proof.
  intros Hne. unfold fill_column. rewrite List.map_map.
  apply List.map_ext. intros r. destruct (isna (cell j r)); [|reflexivity].
  apply cell_insert_ne, Hne.
Qed.

Lemma assign_column_length i vals rs : length (assign_column i vals rs) = length rs.
Proof.
  revert vals. induction rs as [|r rs IH]; intros [|v vals]; simpl; try reflexivity.
  f_equal. apply IH.
Qed.

(** ** Masks *)

Lemma boolean_index_map (f : row -> bool) rs :
  boolean_index (List.map f rs) rs = List.filter f rs.
Proof.
  induction rs as [|r rs IH]; simpl; [reflexivity|].
  destruct (f r); rewrite IH; reflexivity.
Qed.

Lemma boolean_index_sublist mask rs : sublist (boolean_index mask rs) rs.
Proof.
  revert mask. induction rs as [|r rs IH]; intros [|b mask]; simpl;
    try apply sublist_nil_l.
  destruct b; [apply sublist_skip | apply sublist_cons]; apply IH.
Qed.

Lemma filter_sublist (f : row -> bool) rs : sublist (List.filter f rs) rs.
Proof. rewrite <- boolean_index_map. apply boolean_index_sublist. Qed.

(** ** First occurrences *)


Section Keys.
Context (key : row -> value).


End Keys.
(** ** Running the methods *)

Lemma bind_run {A B : Type} (m : M A) (f : A -> M B) (w : World) :
  (m ≫= f) w
  = match m w with
    | (Ok a, w') => f a w'
    | (Raise e, w') => (Raise e, w')
    end.
Proof. reflexivity. Qed.

Lemma read_frame_run data df w :
  heap w !! data = Some df -> read_frame data w = (Ok df, w).
Proof. intros H. unfold read_frame. rewrite H. reflexivity. Qed.

Lemma set_heap_id w h : h = heap w -> set_heap w h = w.
Proof. intros ->. destruct w. reflexivity. Qed.

Lemma lookup_new (h : list DataFrame) df : (h ++ [df]) !! length h = Some df.
Proof. apply list_lookup_middle. reflexivity. Qed.

Lemma lookup_old (h : list DataFrame) df l x :
  h !! l = Some x -> (h ++ [df]) !! l = Some x.
Proof. intros H. apply lookup_app_l_Some. exact H. Qed.

(** One step of a run: the binds are unfolded and the primitives that need
    no fact about the world are executed. *)
Ltac run :=
  repeat first
    [ rewrite bind_run
    | progress unfold lift, new_frame, logger_info, logger_error, write_frame,
        set_heap, set_fs, add_log
    | progress cbn [mbind outcome_bind mret M_ret outcome_ret heap fs log] ].

Section Runs.
Context {L : PyLib}.

(** [load_data] never raises: it returns the table of the file, or a new
    empty table with an error in the log. *)
Lemma load_data_run file_path w :
  load_data file_path w
  = match fs w !! file_path with
    | Some (File (Csv df)) =>
        (Ok (length (heap w)),
         mkWorld (heap w ++ [df]) (fs w)
           (log w ++ [LogInfo (DataLoaded (length (rows df)) (length (columns df)))]))
    | Some (File Opaque) =>
        (Ok (length (heap w)),
         mkWorld (heap w ++ [empty_frame]) (fs w)
           (log w ++ [LogError (LoadFailed ParserError)]))
    | Some Directory =>
        (Ok (length (heap w)),
         mkWorld (heap w ++ [empty_frame]) (fs w)
           (log w ++ [LogError (LoadFailed IsADirectoryError)]))
    | None =>
        (Ok (length (heap w)),
         mkWorld (heap w ++ [empty_frame]) (fs w)
           (log w ++ [LogError FileNotFound]))
    end.
Proof.
  unfold load_data, try_except, read_csv. rewrite bind_run.
  destruct (fs w !! file_path) as [[[df|]|]|]; try reflexivity.
  unfold new_frame. rewrite bind_run.
  rewrite (read_frame_run (length (heap w)) df) by apply lookup_new.
  reflexivity.
Qed.

Lemma handle_missing_values_run data df w :
  heap w !! data = Some df ->
  handle_missing_values data w
  = (Ok data,
     mkWorld (<[data:=filled df]> (heap w)) (fs w)
       (log w ++ [LogInfo MissingValuesHandled])).
Proof.
  intros H. unfold handle_missing_values. rewrite bind_run, (read_frame_run _ _ _ H).
  reflexivity.
Qed.

Lemma update_column_run data c f df w :
  heap w !! data = Some df ->
  update_column data c f w
  = match update_table c f df with
    | Ok df' => (Ok tt, set_heap w (<[data:=df']> (heap w)))
    | Raise e => (Raise e, w)
    end.
Proof.
  intros H. unfold update_column, update_table.
  rewrite bind_run, (read_frame_run _ _ _ H).
  destruct (index_of c (columns df)) as [i|].
  - rewrite bind_run. unfold lift. destruct (f (column_at i df)); reflexivity.
  - simpl. rewrite set_heap_id; [reflexivity|].
    apply list_insert_id. exact H.
Qed.

Lemma lookup_written (h : list DataFrame) data df df' :
  h !! data = Some df -> <[data:=df']> h !! data = Some df'.
Proof.
  intros H. apply list_lookup_insert_eq. eapply lookup_lt_Some. exact H.
Qed.

Lemma standardize_formats_run data df w :
  heap w !! data = Some df ->
  match standardized df with
  | Ok df' =>
      standardize_formats data w
      = (Ok data,
         mkWorld (<[data:=df']> (heap w)) (fs w)
           (log w ++ [LogInfo FormatsStandardized]))
  | Raise e => exists w', standardize_formats data w = (Raise e, w')
                          /\ fs w' = fs w
  end.
Proof.
  intros H. unfold standardize_formats, standardized.
  rewrite bind_run, (update_column_run _ _ _ _ _ H).
  destruct (update_table DATE _ df) as [df1|e]; simpl; [|eauto].
  rewrite bind_run.
  rewrite (update_column_run _ _ _ df1) by (simpl; eapply lookup_written, H).
  destruct (update_table MESSAGE _ df1) as [df2|e]; simpl; [|eauto].
  rewrite bind_run.
  rewrite (update_column_run _ _ _ df2) by (simpl; eapply lookup_written, lookup_written, H).
  destruct (update_table CHANNEL_USERNAME _ df2) as [df3|e]; simpl; [|eauto].
  unfold set_heap; simpl. rewrite !list_insert_insert_eq. reflexivity.
Qed.

Lemma validate_data_run data df w :
  heap w !! data = Some df ->
  match validated df with
  | Ok out =>
      exists l w', validate_data data w = (Ok l, w')
        /\ heap w' !! l = Some out /\ fs w' = fs w
        /\ log w' = log w ++ [LogInfo ValidationCompleted]
  | Raise e => exists w', validate_data data w = (Raise e, w') /\ fs w' = fs w
  end.
Proof.
  intros H. unfold validate_data, validated.
  rewrite bind_run, (read_frame_run _ _ _ H).
  destruct (dropna df DATE) as [df1|e]; run; [|eauto].
  destruct (bool_decide (MESSAGE ∈ columns df1)); run.
  - destruct (filter_by_len df1 MESSAGE (len_le 1000)) as [df2|e]; run; [|eauto].
    rewrite (read_frame_run _ df2) by apply lookup_new.
    destruct (filter_by_len df2 CHANNEL_USERNAME (len_gt 0)) as [df3|e]; run; [|eauto].
    do 2 eexists. split; [reflexivity|]. simpl.
    split; [apply lookup_new | split; reflexivity].
  - rewrite (read_frame_run _ df1) by apply lookup_new.
    destruct (filter_by_len df1 CHANNEL_USERNAME (len_gt 0)) as [df3|e]; run; [|eauto].
    do 2 eexists. split; [reflexivity|]. simpl.
    split; [apply lookup_new | split; reflexivity].
Qed.

(** [save_cleaned_data] renames the columns of the object it is given and
    writes the renamed table to [cleaned_path file_path]. *)
Lemma save_cleaned_data_run data df file_path w :
  heap w !! data = Some df ->
  save_cleaned_data data file_path w
  = match write_failure (fs w) (cleaned_path file_path) with
    | Some e => (Raise e, set_heap w (<[data:=rename df]> (heap w)))
    | None =>
        (Ok tt,
         mkWorld (<[data:=rename df]> (heap w))
           (<[cleaned_path file_path:=File (Csv (read_back (rename df)))]> (fs w))
           (log w ++ [LogInfo (CleanedDataSaved (cleaned_path file_path))]))
    end.
Proof.
  intros H. unfold save_cleaned_data, to_csv.
  rewrite bind_run, (read_frame_run _ _ _ H), bind_run. unfold write_frame at 1.
  rewrite !bind_run.
  rewrite (read_frame_run _ (rename df)) by (simpl; eapply lookup_written, H).
  unfold write_file, write_failure. simpl.
  destruct (fs w !! cleaned_path file_path) as [[c|]|];
    try reflexivity;
    (destruct (cleaned_path file_path) as [|a p]; [reflexivity|]);
    destruct (open_error (fs w) (a :: p)); reflexivity.
Qed.

Lemma row_getitem_cell df rs r c x :
  row_getitem (frame_dtypes df) (with_rows df rs) r c = Ok x ->
  row_scalar df r c = x.
Proof.
  unfold row_getitem, row_scalar. cbn [columns with_rows].
  destruct (index_of c (columns df)); congruence.
Qed.

(** What one round of the loop of [_remove_duplicate_images] does to the
    files: nothing, or it deletes the side-file of its row, which was a
    file. *)
Lemma remove_image_of_run df rs dir r w res w' :
  remove_image_of (frame_dtypes df) (with_rows df rs) dir r w = (res, w') ->
  heap w' = heap w
  /\ (fs w' = fs w
      \/ fs w' = delete (side_file df dir r) (fs w)
         /\ exists c, fs w !! side_file df dir r = Some (File c)).
Proof.
  unfold remove_image_of, side_file. run.
  destruct (row_getitem _ _ r CHANNEL_USERNAME) as [u|e] eqn:Eu; run;
    [|intros [= <- <-]; auto].
  destruct (row_getitem _ _ r ID) as [i|e] eqn:Ei; run;
    [|intros [= <- <-]; auto].
  rewrite (row_getitem_cell _ _ _ _ _ Eu), (row_getitem_cell _ _ _ _ _ Ei).
  unfold path_exists. run.
  destruct (bool_decide _); [|intros [= <- <-]; auto].
  unfold try_except, os_remove. run.
  destruct (fs w !! image_path_of dir u i) as [[c|]|] eqn:E; run;
    try destruct (remove_error (fs w) (image_path_of dir u i)); run;
    intros [= <- <-]; simpl; eauto.
Qed.

(** The loop deletes side-files of the rows it visits, and nothing else. *)
Lemma remove_images_effect df rs0 dir rs w res w' :
  for_each rs (remove_image_of (frame_dtypes df) (with_rows df rs0) dir) w
  = (res, w') ->
  heap w' = heap w
  /\ forall p,
       fs w' !! p = fs w !! p
       \/ fs w' !! p = None
          /\ (exists c, fs w !! p = Some (File c))
          /\ exists r, r ∈ rs /\ p = side_file df dir r.
Proof.
  revert w. induction rs as [|r rs IH]; intros w; simpl.
  - intros [= <- <-]. auto.
  - run. destruct (remove_image_of _ _ dir r w) as [[[]|e] w1] eqn:E1.
    + apply remove_image_of_run in E1 as [Hh1 Hf1]. intros Hrest.
      apply IH in Hrest as [Hh Hf]. split; [congruence|]. intros p.
      destruct (Hf p) as [Hp|(Hp & [c Hc] & r' & Hr' & ->)].
      * rewrite Hp. destruct Hf1 as [->|[-> [c Hc]]]; [auto|].
        destruct (decide (p = side_file df dir r)) as [->|Hne].
        -- right. rewrite lookup_delete_eq. repeat split; eauto.
           exists r. split; [left | reflexivity].
        -- left. apply lookup_delete_ne. congruence.
      * right. split; [exact Hp|]. split.
        -- destruct Hf1 as [Hf1|[Hf1 _]]; rewrite Hf1 in Hc; [eauto|].
           exists c. rewrite <- Hc. symmetry. apply lookup_delete_ne.
           intros Heq. rewrite <- Heq, lookup_delete_eq in Hc. discriminate.
        -- exists r'. split; [right; exact Hr' | reflexivity].
    + intros [= <- <-]. apply remove_image_of_run in E1 as [Hh1 Hf1].
      split; [exact Hh1|]. intros p. destruct Hf1 as [->|[-> [c Hc]]]; [auto|].
      destruct (decide (p = side_file df dir r)) as [->|Hne].
      * right. rewrite lookup_delete_eq. repeat split; eauto.
        exists r. split; [left | reflexivity].
      * left. apply lookup_delete_ne. congruence.
Qed.

Lemma drop_duplicates_index df kept :
  drop_duplicates df ID = Ok kept ->
  exists i, index_of ID (columns df) = Some i
    /\ kept = with_rows df
               (boolean_index (List.map negb (duplicated (column_at i df)))
                  (rows df)).
Proof.
  unfold drop_duplicates, frame_duplicated, getitem.
  destruct (index_of ID (columns df)) as [i|]; simpl; [|discriminate].
  intros [= <-]. eauto.
Qed.

(** [remove_duplicates]: the table it returns and what it does to the
    files. *)
Lemma remove_duplicates_run data df dir w res w' :
  heap w !! data = Some df ->
  remove_duplicates data dir w = (res, w') ->
  (forall p,
     fs w' !! p = fs w !! p
     \/ fs w' !! p = None
        /\ (exists c, fs w !! p = Some (File c))
        /\ exists r, r ∈ removed_rows df /\ p = side_file df dir r)
  /\ (forall l, res = Ok l ->
        exists kept, drop_duplicates df ID = Ok kept /\ heap w' !! l = Some kept)
  /\ (index_of ID (columns df) = None -> res = Raise (KeyError ID)).
Proof.
  intros H. unfold remove_duplicates, removed_rows, column_cells.
  rewrite bind_run, (read_frame_run _ _ _ H).
  unfold drop_duplicates, frame_duplicated, getitem.
  destruct (index_of ID (columns df)) as [i|]; run.
  2:{ intros [= <- <-]. repeat split; [auto | discriminate]. }
  unfold _remove_duplicate_images. run.
  rewrite (read_frame_run (length (heap w)) (with_rows df (boolean_index (duplicated (column_at i df)) (rows df)))).
  2:{ simpl. apply lookup_old, lookup_new. }
  cbn [rows with_rows].
  match goal with
  | |- context [for_each ?rs ?body ?w0] =>
      destruct (for_each rs body w0) as [[[]|e] w1] eqn:E
  end; run; intros [= <- <-];
    apply remove_images_effect in E as [Hh Hf]; simpl in Hh, Hf.
  - split; [exact Hf|]. split; [|discriminate].
    intros l [= <-]. eexists. split; [reflexivity|].
    rewrite Hh. apply lookup_new.
  - split; [exact Hf|]. split; discriminate.
Qed.

End Runs.

(** A removal that the operating system refuses: the image stays, the
    error is a line of the log, and [remove_duplicates] returns the table
    without the duplicate. *)
Lemma refused_removal_is_logged :
  let run := remove_duplicates (L := refusing_lib) 0 photos
               (stage_world doubled_table) in
  run.1 = Ok 2%nat
  /\ heap run.2 !! 2%nat = Some sample_table
  /\ fs run.2 = fs (stage_world doubled_table)
  /\ log run.2
     = [LogInfo (DuplicatesRemoved 1 7);
        LogError (ErrorRemovingImage (str "photos/ChannelA_5.jpg")
                    PermissionError)].
Proof. vm_compute. repeat split; reflexivity. Qed.

(** A write that the operating system refuses: [save_cleaned_data] raises
    after it has renamed the columns, and [clean_telegram_data] returns an
    empty table. *)
Lemma refused_write_is_raised :
  let run := save_cleaned_data (L := refusing_lib) 0 (str "data.csv")
               (stage_world sample_table) in
  let run' := clean_telegram_data (L := refusing_lib) (str "data.csv") photos
                (sample_world (str "data.csv") sample_table) in
  run.1 = Raise PermissionError
  /\ heap run.2 !! 0%nat = Some (rename sample_table)
  /\ fs run.2 = fs (stage_world sample_table)
  /\ heap run'.2 !! 6%nat = Some empty_frame
  /\ run'.1 = Ok 6%nat
  /\ last (log run'.2) = Some (LogError (CleaningFailed PermissionError)).
Proof. vm_compute. repeat split; reflexivity. Qed.

(** The name of a side-file follows the dtypes of the table.  In a table
    whose columns are all numeric and one of them [float64], a row of
    [iterrows()] is a float row and the identifier 5 is written [5.0]; in a
    table with an [object] column the identifier of an [int64] column is
    written [5], whatever the removed rows hold, and the identifier of a
    [float64] column is written [5.0]. *)
Lemma side_files_follow_the_dtypes :
  let run := remove_duplicates (L := reference_lib) 0 photos
               (numbers_world numbers_table) in
  let run' := remove_duplicates (L := reference_lib) 0 photos
                (numbers_world unnumbered_table) in
  frame_dtypes numbers_table = [int64; float64]
  /\ side_file (L := reference_lib) numbers_table photos [Int 5; NaN]
     = str "photos/nan_5.0.jpg"
  /\ fs run.2 !! str "photos/nan_5.0.jpg" = None
  /\ fs run.2 !! str "photos/nan_5.jpg" = Some (File Opaque)
  /\ frame_dtypes named_once_table = [int64; object]
  /\ removed_rows named_once_table = [[Int 2; NaN]]
  /\ side_file (L := reference_lib) named_once_table photos [Int 2; NaN]
     = str "photos/nan_2.jpg"
  /\ frame_dtypes unnumbered_table = [float64; object]
  /\ side_file (L := reference_lib) unnumbered_table photos
       [Int 5; Str (str "a")]
     = str "photos/a_5.0.jpg"
  /\ fs run'.2 !! str "photos/a_5.0.jpg" = None
  /\ fs run'.2 !! str "photos/a_5.jpg" = Some (File Opaque).
Proof. vm_compute. repeat split; reflexivity. Qed.

(** ** The columns of the cleaned table *)

Lemma column_mapping_lookup c c' :
  column_mapping !! c = Some c' ->
  (c, c') ∈ [ (CHANNEL_ID, str "channel_id");
              (CHANNEL_USERNAME, str "channel_username");
              (CHANNEL_TITLE, str "channel_title");
              (ID, str "message_id");
              (MESSAGE, str "Message");
              (DATE, str "date");
              (Media_path, str "media_path") ].
Proof. apply elem_of_list_to_map_2. Qed.

(** The cases of a membership in a list that is written out. *)
Ltac elems H :=
  repeat (apply elem_of_cons in H as [H|H]);
  [..|apply elem_of_nil in H; destruct H].

(** Two labels that are written out differ. *)
Ltac labels_differ :=
  let H := fresh in intros H; vm_compute in H; discriminate H.

(** A column of the renamed table carries none of the input names that the
    mapping replaces. *)
Lemma rename_column_fresh c c' :
  c' ∈ [CHANNEL_USERNAME; CHANNEL_TITLE; ID; DATE; Media_path] ->
  rename_column c <> c'.
Proof.
  intros Hc'. unfold rename_column.
  destruct (column_mapping !! c) as [d|] eqn:E; simpl.
  - apply column_mapping_lookup in E.
    elems E; injection E as -> ->; elems Hc'; subst c'; labels_differ.
  - intros ->. elems Hc'; subst c'; vm_compute in E; discriminate E.
Qed.



(** ** The stages as functions on tables *)


Lemma filter_filter {A : Type} (f g : A -> bool) (l : list A) :
  List.filter g (List.filter f l) = List.filter (fun x => f x && g x) l.
Proof.
  induction l as [|x l IH]; simpl; [reflexivity|].
  destruct (f x); simpl; [destruct (g x)|]; rewrite IH; reflexivity.
Qed.

Lemma str_accessor_Ok vs vs' : str_accessor vs = Ok vs' -> vs' = vs.
Proof. unfold str_accessor. destruct (forallb _ vs); congruence. Qed.

Lemma dropna_Ok df c out :
  dropna df c = Ok out ->
  exists i, index_of c (columns df) = Some i
    /\ out = with_rows df
               (List.filter (fun r => negb (isna (cell i r))) (rows df)).
Proof.
  unfold dropna, getitem, column_at.
  destruct (index_of c (columns df)) as [i|]; simpl; [|discriminate].
  intros [= <-]. exists i. split; [reflexivity|].
  rewrite List.map_map, boolean_index_map. reflexivity.
Qed.

Lemma filter_by_len_Ok df c test out :
  filter_by_len df c test = Ok out ->
  exists i, index_of c (columns df) = Some i
    /\ out = with_rows df (List.filter (fun r => test (cell i r)) (rows df)).
Proof.
  unfold filter_by_len, getitem, column_at.
  destruct (index_of c (columns df)) as [i|]; simpl; [|discriminate].
  destruct (str_accessor _) as [vs|] eqn:E; simpl; [|discriminate].
  apply str_accessor_Ok in E as ->. intros [= <-]. exists i.
  split; [reflexivity|]. rewrite List.map_map, boolean_index_map. reflexivity.
Qed.

Section Stages.
Context {L : PyLib}.

Lemma update_table_Ok c f df df' :
  update_table c f df = Ok df' ->
  columns df' = columns df
  /\ length (rows df') = length (rows df)
  /\ forall i, index_of c (columns df) <> Some i ->
       column_at i df' = column_at i df.
Proof.
  unfold update_table. destruct (index_of c (columns df)) as [j|].
  - destruct (f (column_at j df)) as [vals|]; simpl; [|discriminate].
    intros [= <-]. simpl. split; [reflexivity|].
    split; [apply assign_column_length|].
    intros i Hi. apply column_assign_ne. congruence.
  - intros [= <-]. auto.
Qed.

Lemma fillna_frame values df :
  columns (fillna values df) = columns df
  /\ length (rows (fillna values df)) = length (rows df)
  /\ forall i, (forall cv, cv ∈ values -> index_of cv.1 (columns df) <> Some i) ->
       column_at i (fillna values df) = column_at i df.
Proof.
  revert df. induction values as [|[c v] values IH]; intros df; simpl;
    [auto|].
  destruct (index_of c (columns df)) as [j|] eqn:E.
  - destruct (IH (with_rows df (fill_column j v (rows df)))) as (Hc & Hl & Hi).
    simpl in Hc, Hl, Hi. split; [exact Hc|].
    split; [rewrite Hl; unfold fill_column; apply List.length_map|].
    intros i Hfresh. rewrite Hi.
    + unfold column_at. simpl. apply column_fill_ne.
      intros ->. apply (Hfresh (c, v)); [left | exact E].
    + intros cv Hcv. apply Hfresh. right. exact Hcv.
  - destruct (IH df) as (Hc & Hl & Hi). split; [exact Hc|]. split; [exact Hl|].
    intros i Hfresh. apply Hi. intros cv Hcv. apply Hfresh. right. exact Hcv.
Qed.

Lemma standardized_Ok df df' :
  standardized df = Ok df' ->
  columns df' = columns df
  /\ length (rows df') = length (rows df)
  /\ forall i, index_of ID (columns df) = Some i ->
       column_at i df' = column_at i df.
Proof.
  unfold standardized.
  destruct (update_table DATE _ df) as [df1|] eqn:E1; simpl; [|discriminate].
  destruct (update_table MESSAGE _ df1) as [df2|] eqn:E2; simpl; [|discriminate].
  intros E3.
  apply update_table_Ok in E1 as (C1 & L1 & I1).
  apply update_table_Ok in E2 as (C2 & L2 & I2).
  apply update_table_Ok in E3 as (C3 & L3 & I3).
  split; [congruence|]. split; [congruence|].
  intros i Hi. rewrite I3, I2, I1; [reflexivity|..];
    rewrite ?C2, ?C1; intros Hc;
    pose proof (index_of_inj _ _ _ _ Hi Hc) as Heq;
    vm_compute in Heq; discriminate Heq.
Qed.

Lemma validated_Ok df out :
  validated df = Ok out ->
  columns out = columns df
  /\ sublist (rows out) (rows df)
  /\ (MESSAGE ∈ columns df ->
      rows out
      = List.filter
          (fun r => date_present df r && message_bounded df r
                    && username_present df r)
          (rows df)).
Proof.
  unfold validated.
  destruct (dropna df DATE) as [df1|] eqn:E1; simpl; [|discriminate].
  apply dropna_Ok in E1 as (i & Hi & ->). simpl.
  unfold date_present, message_bounded, username_present, row_cell.
  rewrite Hi.
  destruct (bool_decide_reflect (MESSAGE ∈ columns df)) as [Hm|Hm].
  - destruct (filter_by_len _ MESSAGE _) as [df2|] eqn:E2; simpl; [|discriminate].
    apply filter_by_len_Ok in E2 as (j & Hj & ->). simpl in Hj.
    intros (k & Hk & ->)%filter_by_len_Ok. simpl in Hk. simpl.
    rewrite Hj, Hk, !filter_filter. split; [reflexivity|].
    split; [apply filter_sublist|]. intros _.
    apply List.filter_ext. intros r. apply andb_assoc.
  - intros (k & Hk & ->)%filter_by_len_Ok. simpl in Hk. simpl.
    rewrite filter_filter. split; [reflexivity|].
    split; [apply filter_sublist | contradiction].
Qed.

(** The columns a completed run returns are the renamed columns of the
    table it loaded. *)
Lemma cleaned_columns df out :
  cleaned df = Ok out -> columns out = List.map rename_column (columns df).
Proof.
  unfold cleaned.
  destruct (drop_duplicates df ID) as [kept|] eqn:E1; simpl; [|discriminate].
  destruct (standardized (filled kept)) as [df2|] eqn:E2; simpl; [|discriminate].
  destruct (validated df2) as [df3|] eqn:E3; simpl; [|discriminate].
  intros [= <-]. simpl.
  apply drop_duplicates_index in E1 as (i & _ & ->).
  apply standardized_Ok in E2 as (C2 & _).
  apply validated_Ok in E3 as (C3 & _).
  rewrite C3, C2. unfold filled. rewrite (proj1 (fillna_frame _ _)). reflexivity.
Qed.


End Stages.

(** ** The orchestrator *)

Section Orchestrator.
Context {L : PyLib}.

Lemma load_data_loaded file_path w :
  exists m,
    (m = LogInfo (DataLoaded (length (rows (loaded w file_path)))
                    (length (columns (loaded w file_path))))
     /\ fs w !! file_path = Some (File (Csv (loaded w file_path)))
     \/ (forall df, fs w !! file_path <> Some (File (Csv df)))
        /\ (m = LogError FileNotFound \/ exists e, m = LogError (LoadFailed e)))
    /\ load_data file_path w
       = (Ok (length (heap w)),
          mkWorld (heap w ++ [loaded w file_path]) (fs w) (log w ++ [m])).
Proof.
  rewrite load_data_run. unfold loaded.
  destruct (fs w !! file_path) as [[[df|]|]|]; eexists;
    (split; [|reflexivity]); eauto 8.
Qed.

(** The three ways the [try] block ends: without data, with the cleaned
    table, or with an exception. *)
Lemma cleaning_steps_run file_path image_directory w res w' :
  cleaning_steps file_path image_directory w = (res, w') ->
  let df0 := loaded w file_path in
  (frame_empty df0 = true
   /\ res = Ok (length (heap w))
   /\ heap w' = heap w ++ [df0]
   /\ fs w' = fs w
   /\ exists m, log w' = log w ++ [m; LogError NoDataLoaded])
  \/ (frame_empty df0 = false
      /\ fs w !! file_path = Some (File (Csv df0))
      /\ ((exists l out,
             res = Ok l /\ cleaned df0 = Ok out /\ heap w' !! l = Some out
             /\ fs w' !! cleaned_path file_path
                = Some (File (Csv (read_back out)))
             /\ completed w')
          \/ exists e, res = Raise e)).
Proof.
  unfold cleaning_steps. rewrite bind_run.
  destruct (load_data_loaded file_path w) as (m & Hm & ->).
  set (df0 := loaded w file_path) in *. run.
  rewrite (read_frame_run _ df0) by apply lookup_new.
  destruct (frame_empty df0) eqn:Hempty; run.
  { intros [= <- <-]. left. simpl. repeat split.
    exists m. rewrite <- app_assoc. reflexivity. }
  intros Hrun. right. split; [reflexivity|].
  assert (Hfile : fs w !! file_path = Some (File (Csv df0))).
  { destruct Hm as [[_ H]|[H _]]; [exact H|].
    unfold df0, loaded in Hempty.
    destruct (fs w !! file_path) as [[[df|]|]|]; try discriminate Hempty.
    destruct (H df). reflexivity. }
  split; [exact Hfile|].
  match type of Hrun with
  | context [remove_duplicates ?l ?d ?w0] =>
      destruct (remove_duplicates l d w0) as [[l1|e] w1] eqn:E1
  end; [|injection Hrun as <- <-; eauto].
  apply remove_duplicates_run with (df := df0) in E1 as (_ & Hkept & _);
    [|apply lookup_new].
  destruct (Hkept l1 eq_refl) as (kept & Hdrop & Hl1).
  rewrite bind_run, (handle_missing_values_run _ _ _ Hl1) in Hrun.
  rewrite bind_run in Hrun.
  match type of Hrun with
  | context [standardize_formats l1 ?w2] =>
      pose proof (standardize_formats_run l1 (filled kept) w2) as Hstd
  end.
  simpl in Hstd. specialize (Hstd (lookup_written _ _ _ _ Hl1)).
  destruct (standardized (filled kept)) as [df3|e] eqn:E3.
  2:{ destruct Hstd as (w3 & Hstd & _). rewrite Hstd in Hrun.
      injection Hrun as <- <-. eauto. }
  rewrite Hstd, bind_run in Hrun. clear Hstd.
  match type of Hrun with
  | context [validate_data l1 ?w3] =>
      pose proof (validate_data_run l1 df3 w3) as Hval
  end.
  simpl in Hval. rewrite list_insert_insert_eq in Hval.
  specialize (Hval (lookup_written _ _ _ _ Hl1)).
  rewrite list_insert_insert_eq in Hrun.
  destruct (validated df3) as [df4|e] eqn:E4.
  2:{ destruct Hval as (w4 & Hval & _). rewrite Hval in Hrun.
      injection Hrun as <- <-. eauto. }
  destruct Hval as (l4 & w4 & Hval & Hl4 & _). rewrite Hval in Hrun.
  rewrite bind_run, (save_cleaned_data_run _ _ _ _ Hl4) in Hrun.
  destruct (write_failure (fs w4) (cleaned_path file_path)) as [e|];
    [injection Hrun as <- <-; eauto|].
  run; injection Hrun as <- <-; left; exists l4, (rename df4);
    (split; [reflexivity|]);
    (split; [unfold cleaned; rewrite Hdrop; simpl; rewrite E3; simpl;
             rewrite E4; reflexivity|]);
    simpl; (split; [eapply lookup_written, Hl4|]);
    (split; [apply lookup_insert_eq|]);
    unfold completed; simpl; apply last_snoc.
Qed.

(** [clean_telegram_data] turns an exception of the [try] block into a new
    empty table and a line of the log. *)
Lemma clean_telegram_data_run file_path image_directory w :
  clean_telegram_data file_path image_directory w
  = match cleaning_steps file_path image_directory w with
    | (Ok l, w') => (Ok l, w')
    | (Raise e, w') =>
        (Ok (length (heap w')),
         mkWorld (heap w' ++ [empty_frame]) (fs w')
           (log w' ++ [LogError (CleaningFailed e)]))
    end.
Proof. reflexivity. Qed.

End Orchestrator.

(** ** Replacing a literal *)







(** ** What the cleaning of a message does guarantee *)

Lemma whitespace_run_spaced s :
  (forall k, k = span_length isspace s ->
     single_spaced true (re_sub_from whitespace_run (str " ") k s) = true)
  /\ single_spaced false (re_sub_from whitespace_run (str " ") O s) = true.
Proof.
  induction s as [|c s [IH1 IH2]]; [split; [intros k _|]; reflexivity|].
  assert (H0 : single_spaced false
                 (re_sub_from whitespace_run (str " ") O (c :: s)) = true).
  { cbn [re_sub_from]. unfold whitespace_run. cbn [span_length].
    destruct (isspace c) eqn:Hc.
    - change (single_spaced true
                (re_sub_from whitespace_run (str " ") (span_length isspace s) s)
              = true).
      apply IH1. reflexivity.
    - cbn [single_spaced]. rewrite Hc. exact IH2. }
  split; [|exact H0].
  intros k ->. cbn [span_length]. destruct (isspace c) eqn:Hc.
  - cbn [re_sub_from]. apply IH1. reflexivity.
  - cbn [re_sub_from]. unfold whitespace_run. cbn [span_length]. rewrite Hc.
    cbn [single_spaced]. rewrite Hc. exact IH2.
Qed.

Lemma lstrip_spaced b s :
  single_spaced b s = true -> single_spaced true (lstrip s) = true.
Proof.
  revert b. induction s as [|c s IH]; intros b; simpl; [reflexivity|].
  destruct (isspace c) eqn:Hc.
  - intros [_ H]%andb_prop. exact (IH true H).
  - simpl. rewrite Hc. auto.
Qed.

Lemma rstrip_spaced b s :
  single_spaced b s = true -> single_spaced b (rstrip s) = true.
Proof.
  revert b. induction s as [|c s IH]; intros b; simpl; [reflexivity|].
  destruct (rstrip s) as [|d r] eqn:E.
  - destruct (isspace c) eqn:Hc; simpl; [reflexivity|]. rewrite Hc. reflexivity.
  - simpl. destruct (isspace c).
    + intros [H1 H2]%andb_prop. rewrite H1. exact (IH true H2).
    + exact (IH false).
Qed.

Lemma rstrip_last s c : last (rstrip s) = Some c -> isspace c = false.
Proof.
  induction s as [|x s IH]; simpl; [discriminate|].
  destruct (rstrip s) as [|d r] eqn:E.
  - destruct (isspace x) eqn:Hx; simpl; [discriminate|]. congruence.
  - intros H. apply IH. exact H.
Qed.

Lemma lstrip_last s c : last (lstrip s) = Some c -> last s = Some c.
Proof.
  induction s as [|x s IH]; simpl; [discriminate|].
  destruct (isspace x); [|auto].
  intros H. specialize (IH H). destruct s; [discriminate | exact IH].
Qed.

(** The part of C1 that the code keeps, for every input and every emoji
    remover: the result of [clean_message_content] does not start or end
    with whitespace, and each whitespace character in it is a single space
    between two characters that are not whitespace. *)
Theorem clean_message_content_single_spaced (L : PyLib) (s : text) :
  single_spaced true (clean_message_content s) = true
  /\ forall c, last (clean_message_content s) = Some c -> isspace c = false.
Proof.
  unfold clean_message_content, strip, re_sub. split.
  - eapply lstrip_spaced, rstrip_spaced, whitespace_run_spaced.
  - intros c H%lstrip_last. exact (rstrip_last _ _ H).
Qed.

(** The allow-list pattern deletes nothing from a text without [@]: each of
    its matches holds one. *)
Lemma allowed_characters_at s n :
  allowed_characters s = Some n -> 64 ∈ s.
Proof.
  unfold allowed_characters. intros H.
  destruct s as [|c [|c1 s]]; try discriminate H.
  right. destruct (decide (c1 = 64)) as [->|Hne]; [left|].
  exfalso.
  repeat match type of H with
         | context [match ?p with _ => _ end] =>
             is_var p; destruct p; try discriminate H; try congruence
         end.
Qed.

(** The substitution of [allowed_characters] returns a text without [@] as
    it is, whatever characters it holds. *)
Theorem text_without_at_is_not_filtered (s : text) :
  64 ∉ s -> re_sub allowed_characters [] s = s.
Proof.
  unfold re_sub. induction s as [|c s IH]; [reflexivity|].
  intros Hat. cbn [re_sub_from].
  destruct (allowed_characters (c :: s)) as [n|] eqn:E.
  - apply allowed_characters_at in E. contradiction.
  - f_equal. apply IH. intros H. apply Hat. right. exact H.
Qed.

(** The text of C1's failing input. *)
Lemma text_without_at_witness :
  re_sub allowed_characters [] (str "a/b_c") = str "a/b_c".
Proof.
  apply (text_without_at_is_not_filtered (str "a/b_c")).
  apply (bool_decide_unpack _). vm_compute. exact I.
Defined.

(** ** What the standardization of a channel name guarantees *)

Lemma re_sub_not_alnum_space s :
  re_sub not_alnum_space [] s = List.filter alnum_space s.
Proof.
  unfold re_sub. induction s as [|c s IH]; [reflexivity|].
  cbn [re_sub_from not_alnum_space List.filter]. fold (alnum_space c).
  destruct (alnum_space c); simpl; rewrite IH; reflexivity.
Qed.

Lemma lstrip_forallb f s : forallb f s = true -> forallb f (lstrip s) = true.
Proof.
  induction s as [|c s IH]; simpl; [reflexivity|].
  intros [Hc Hs]%andb_prop. destruct (isspace c); [auto|].
  simpl. rewrite Hc. exact Hs.
Qed.

Lemma rstrip_forallb f s : forallb f s = true -> forallb f (rstrip s) = true.
Proof.
  induction s as [|c s IH]; simpl; [reflexivity|].
  intros [Hc Hs]%andb_prop. specialize (IH Hs).
  destruct (rstrip s) as [|d r].
  - destruct (isspace c); simpl; [reflexivity|]. rewrite Hc. reflexivity.
  - cbn [forallb]. rewrite Hc. exact IH.
Qed.

Lemma to_lower_letter c :
  is_lower c || is_upper c = true -> is_lower (to_lower c) = true.
Proof.
  unfold to_lower, is_lower, is_upper.
  destruct (N.leb_spec 65 c) as [H1|H1], (N.leb_spec c 90) as [H2|H2]; simpl;
    intros Hl; rewrite ?orb_false_r in Hl; try exact Hl;
    apply andb_true_iff; split; apply N.leb_le; lia.
Qed.

Lemma to_upper_letter c :
  is_lower c || is_upper c = true -> is_upper (to_upper c) = true.
Proof.
  unfold to_upper, is_lower, is_upper.
  destruct (N.leb_spec 97 c) as [H1|H1], (N.leb_spec c 122) as [H2|H2]; simpl;
    intros Hl; try exact Hl;
    apply andb_true_iff; split; apply N.leb_le; lia.
Qed.

Lemma title_from_forallb b s :
  forallb alnum_space s = true -> forallb alnum_space (title_from b s) = true.
Proof.
  revert b. induction s as [|c s IH]; intros b; simpl; [reflexivity|].
  intros [Hc Hs]%andb_prop.
  destruct (is_lower c || is_upper c) eqn:Hl; simpl.
  - rewrite (IH true Hs), andb_true_r. unfold alnum_space.
    destruct b;
      [rewrite (to_lower_letter c Hl) | rewrite (to_upper_letter c Hl)];
      rewrite ?orb_true_r; reflexivity.
  - rewrite Hc. exact (IH false Hs).
Qed.

Lemma str_method_Ok f vs vs' :
  str_method f vs = Ok vs' ->
  vs' = List.map (fun v => match v with Str s => Str (f s) | _ => v end) vs.
Proof.
  unfold str_method. destruct (str_accessor vs) as [vs0|] eqn:E; simpl;
    [|discriminate].
  apply str_accessor_Ok in E as ->. congruence.
Qed.

(** The channel names [standardize_formats] writes hold ASCII letters,
    digits and whitespace only, so that [title] above is all of
    [str.title()] on them; the column keeps its length. *)
Theorem standardized_usernames_are_alphanumeric (vs vs' : list value) :
  standardize_usernames vs = Ok vs' ->
  length vs' = length vs
  /\ forall u, Str u ∈ vs' -> forallb alnum_space u = true.
Proof.
  unfold standardize_usernames.
  destruct (str_method _ vs) as [vs1|] eqn:E1; simpl; [|discriminate].
  destruct (str_method strip vs1) as [vs2|] eqn:E2; simpl; [|discriminate].
  intros E3.
  apply str_method_Ok in E1 as ->. apply str_method_Ok in E2 as ->.
  apply str_method_Ok in E3 as ->.
  rewrite !List.map_map. split; [apply List.length_map|].
  intros u Hu. rewrite list_elem_of_In, List.in_map_iff in Hu.
  destruct Hu as ([|x| | |] & Hx & _); try discriminate Hx.
  injection Hx as <-.
  apply title_from_forallb, lstrip_forallb, rstrip_forallb.
  rewrite re_sub_not_alnum_space. apply forallb_forall.
  intros c Hc%List.filter_In. apply Hc.
Qed.

(** A name with punctuation and blanks, and the placeholder. *)
Lemma standardized_usernames_witness :
  length [Str (str "Channela"); Str (str "Unknown")]
  = length [Str (str " channel@A! "); Str (str "Unknown")]
  /\ forall u,
       Str u ∈ [Str (str "Channela"); Str (str "Unknown")] ->
       forallb alnum_space u = true.
Proof.
  apply (standardized_usernames_are_alphanumeric
           [Str (str " channel@A! "); Str (str "Unknown")]).
  reflexivity.
Defined.

(** * The claims *)

(** ** Cleaning a message *)

(** C1 (what the code does at an input the claim covers):
    [clean_message_content] returns the ASCII text [a/b_c] as it is, although
    neither [/] nor [_] is on the allow-list.  The pattern
    [allowed_characters] only matches a character outside its set when [@&]]
    follows it, so it deletes none of the three characters the claim says
    cannot survive. *)
Theorem disallowed_character_survives (L : PyLib) :
  clean_message_content (str "a/b_c") = str "a/b_c"
  /\ allow_listed 47 = false /\ allow_listed 95 = false.
Proof.
  unfold clean_message_content.
  rewrite replace_emoji_ascii by reflexivity.
  repeat split; reflexivity.
Qed.

(** C2, amended: with an emoji remover that deletes the two party poppers
    of the message, the standardized text of
    ["Great news!! " U+1F389 U+1F389 " visit https://x "] is, apart from its [/] characters,
    ["great news!! visit https:x"]: the emoji are gone, the whitespace is
    collapsed and trimmed, the letters are lower-cased, and the [:] and the
    [x] after [https] are kept. *)
Theorem great_news_standardized (L : PyLib) :
  replace_emoji great_news = str "Great news!!  visit https://x " ->
  exists r,
    standardize_messages [Str great_news] = Ok [Str r]
    /\ List.filter (fun c => negb (c =? 47)) r
       = str "great news!! visit https:x".
Proof.
  intros Hemoji.
  exists (str "great news!! visit https://x").
  split; [|reflexivity].
  unfold standardize_messages.
  cbn [series_apply clean_message_cell mbind outcome_bind].
  unfold clean_message_content. rewrite Hemoji.
  unfold str_method.
  change (re_sub whitespace_run (str " ")
            (re_sub allowed_characters []
               (str "Great news!!  visit https://x ")))
    with (str "Great news!! visit https://x ").
  change (strip (str "Great news!! visit https://x "))
    with (str "Great news!! visit https://x").
  cbn [str_accessor forallb andb mbind outcome_bind List.map].
  rewrite lower_ascii by reflexivity.
  reflexivity.
Qed.

(** The scenario with the reference emoji remover. *)
Lemma great_news_standardized_witness :
  exists r,
    standardize_messages (L := reference_lib) [Str great_news] = Ok [Str r]
    /\ List.filter (fun c => negb (c =? 47)) r
       = str "great news!! visit https:x".
Proof. apply (great_news_standardized reference_lib). reflexivity. Defined.

(** C2 as stated fails: the message is standardized to
    ["great news!! visit https://x"], not to ["great news!! visit https"]. *)
Lemma great_news_not_as_specified :
  standardize_messages (L := reference_lib) [Str great_news]
  = Ok [Str (str "great news!! visit https://x")]
  /\ str "great news!! visit https://x" <> str "great news!! visit https".
Proof. split; [reflexivity | discriminate]. Qed.

(** ** Validation *)

(** C6: on a table with a message column, the validator returns the rows
    that pass its three tests, in their order, and only those: a timestamp
    that is not missing, a message of at most 1000 characters, a channel
    username that is not empty. *)
Theorem validator_keeps_the_valid_rows (L : PyLib) data df w l w' :
  heap w !! data = Some df ->
  MESSAGE ∈ columns df ->
  validate_data data w = (Ok l, w') ->
  exists out,
    heap w' !! l = Some out
    /\ columns out = columns df
    /\ rows out
       = List.filter
           (fun r => date_present df r && message_bounded df r
                     && username_present df r)
           (rows df)
    /\ (forall r,
          r ∈ rows out <->
          r ∈ rows df /\ date_present df r = true
          /\ message_bounded df r = true /\ username_present df r = true)
    /\ (forall r,
          r ∈ rows out ->
          isna (row_cell df r DATE) = false
          /\ (exists s, row_cell df r MESSAGE = Str s /\ (length s <= 1000)%nat)
          /\ (exists u, row_cell df r CHANNEL_USERNAME = Str u
                        /\ (0 < length u)%nat)).
Proof.
  intros Hdf Hm Hrun.
  pose proof (validate_data_run data df w Hdf) as Hval.
  destruct (validated df) as [out|e] eqn:E.
  2:{ destruct Hval as (w1 & Hval & _). congruence. }
  destruct Hval as (l1 & w1 & Hval & Hout & _).
  rewrite Hval in Hrun. injection Hrun as <- <-.
  apply validated_Ok in E as (Hc & _ & Hr). specialize (Hr Hm).
  assert (Hiff : forall r,
    r ∈ rows out <->
    r ∈ rows df /\ date_present df r = true
    /\ message_bounded df r = true /\ username_present df r = true).
  { intros r. rewrite Hr, !list_elem_of_In, List.filter_In, !andb_true_iff.
    tauto. }
  exists out. do 4 (split; [assumption|]).
  intros r Hin. apply Hiff in Hin as (_ & Hd & Hb & Hu).
  unfold date_present, message_bounded, username_present, len_le, len_gt,
    str_len in *.
  split; [destruct (isna _); [discriminate | reflexivity]|].
  split.
  - destruct (row_cell df r MESSAGE) as [|s| | |]; try discriminate.
    exists s. split; [reflexivity|]. apply Nat.leb_le, Hb.
  - destruct (row_cell df r CHANNEL_USERNAME) as [|u| | |]; try discriminate.
    exists u. split; [reflexivity|]. apply Nat.ltb_lt, Hu.
Qed.

(** The validator on [standardized_table]: of the three rows the valid one
    is kept. *)
Lemma validator_keeps_the_valid_rows_witness :
  exists out,
    heap (validate_data 0 (stage_world standardized_table)).2 !! 3%nat
    = Some out
    /\ columns out = columns standardized_table
    /\ rows out
       = List.filter
           (fun r => date_present standardized_table r
                     && message_bounded standardized_table r
                     && username_present standardized_table r)
           (rows standardized_table)
    /\ (forall r,
          r ∈ rows out <->
          r ∈ rows standardized_table
          /\ date_present standardized_table r = true
          /\ message_bounded standardized_table r = true
          /\ username_present standardized_table r = true)
    /\ (forall r,
          r ∈ rows out ->
          isna (row_cell standardized_table r DATE) = false
          /\ (exists s, row_cell standardized_table r MESSAGE = Str s
                        /\ (length s <= 1000)%nat)
          /\ (exists u, row_cell standardized_table r CHANNEL_USERNAME = Str u
                        /\ (0 < length u)%nat)).
Proof.
  apply (validator_keeps_the_valid_rows reference_lib 0 standardized_table
           (stage_world standardized_table)).
  - reflexivity.
  - apply (bool_decide_unpack _). vm_compute. exact I.
  - vm_compute. reflexivity.
Defined.

(** ** Failures *)

(** C8: when the file is absent or cannot be parsed, [load_data] returns a
    new empty table and raises nothing, and [clean_telegram_data] returns
    that table at once: the files are as they were (nothing deleted, nothing
    written), the only new object is the empty table, and the log gets the
    two error lines of the loader and of the orchestrator. *)
Theorem unreadable_input_short_circuits (L : PyLib)
    file_path image_directory w :
  (forall df, fs w !! file_path <> Some (File (Csv df))) ->
  exists m,
    (m = FileNotFound \/ exists e, m = LoadFailed e)
    /\ (fs w !! file_path = None -> m = FileNotFound)
    /\ load_data file_path w
       = (Ok (length (heap w)),
          mkWorld (heap w ++ [empty_frame]) (fs w) (log w ++ [LogError m]))
    /\ clean_telegram_data file_path image_directory w
       = (Ok (length (heap w)),
          mkWorld (heap w ++ [empty_frame]) (fs w)
            (log w ++ [LogError m; LogError NoDataLoaded])).
Proof.
  intros Hno. rewrite clean_telegram_data_run. unfold cleaning_steps.
  rewrite bind_run, load_data_run.
  destruct (fs w !! file_path) as [[[df|]|]|] eqn:E.
  - destruct (Hno df). reflexivity.
  - exists (LoadFailed ParserError). split; [eauto|]. split; [discriminate|].
    split; [reflexivity|]. run.
    rewrite (read_frame_run _ empty_frame) by apply lookup_new.
    run. simpl. rewrite <- app_assoc. reflexivity.
  - exists (LoadFailed IsADirectoryError). split; [eauto|].
    split; [discriminate|]. split; [reflexivity|]. run.
    rewrite (read_frame_run _ empty_frame) by apply lookup_new.
    run. simpl. rewrite <- app_assoc. reflexivity.
  - exists FileNotFound. split; [eauto|]. split; [reflexivity|].
    split; [reflexivity|]. run.
    rewrite (read_frame_run _ empty_frame) by apply lookup_new.
    run. simpl. rewrite <- app_assoc. reflexivity.
Qed.

(** A path that is no file of the sample world. *)
Lemma unreadable_input_witness :
  exists m,
    (m = FileNotFound \/ exists e, m = LoadFailed e)
    /\ (fs (sample_world (str "data.csv") sample_table) !! str "missing.csv"
        = None -> m = FileNotFound)
    /\ load_data (str "missing.csv")
         (sample_world (str "data.csv") sample_table)
       = (Ok O,
          mkWorld [empty_frame]
            (fs (sample_world (str "data.csv") sample_table))
            [LogError m])
    /\ clean_telegram_data (L := reference_lib) (str "missing.csv") photos
         (sample_world (str "data.csv") sample_table)
       = (Ok O,
          mkWorld [empty_frame]
            (fs (sample_world (str "data.csv") sample_table))
            [LogError m; LogError NoDataLoaded]).
Proof.
  apply (unreadable_input_short_circuits reference_lib (str "missing.csv")
           photos (sample_world (str "data.csv") sample_table)).
  intros df H. vm_compute in H. discriminate H.
Defined.

(** C9: [clean_telegram_data] never raises.  It always returns a reference
    to a table, and when a stage raises, the table is a new empty one and
    the exception is the last line of the log. *)
Theorem clean_telegram_data_never_raises (L : PyLib)
    file_path image_directory w :
  exists l w' df,
    clean_telegram_data file_path image_directory w = (Ok l, w')
    /\ heap w' !! l = Some df
    /\ forall e w1,
         cleaning_steps file_path image_directory w = (Raise e, w1) ->
         df = empty_frame
         /\ fs w' = fs w1
         /\ log w' = log w1 ++ [LogError (CleaningFailed e)].
Proof.
  rewrite clean_telegram_data_run.
  destruct (cleaning_steps file_path image_directory w) as [[l|e] w1] eqn:E.
  - apply cleaning_steps_run in E
      as [(_ & [= ->] & Hh & _)|(_ & _ & [(l' & out & [= ->] & _ & Hl & _)|[e [=]]])].
    + do 3 eexists. split; [reflexivity|]. split; [|discriminate].
      rewrite Hh. apply lookup_new.
    + do 3 eexists. split; [reflexivity|]. split; [exact Hl | discriminate].
  - do 3 eexists. split; [reflexivity|]. split; [apply lookup_new|].
    intros e' w2 [= <- <-]. auto.
Qed.

(** A run that fails: the table of the file has no [ID] column, the
    [KeyError] of [remove_duplicates] is logged and the run returns the empty
    table. *)
Lemma failure_is_caught_example :
  let w := sample_world (str "data.csv")
             (mkDataFrame [MESSAGE] [[Str (str "Hello")]]) in
  clean_telegram_data (L := reference_lib) (str "data.csv") photos w
  = (Ok 1%nat,
     mkWorld [mkDataFrame [MESSAGE] [[Str (str "Hello")]]; empty_frame]
       (fs w)
       [LogInfo (DataLoaded 1 1); LogError (CleaningFailed (KeyError ID))]).
Proof. reflexivity. Qed.

(** ** The returned table *)

Lemma last_two {A : Type} (l : list A) (x y : A) : last (l ++ [x; y]) = Some y.
Proof. change [x; y] with ([x] ++ [y]). rewrite app_assoc. apply last_snoc. Qed.

(** A completed run read from its result: the table it returns is the
    cleaned table of the file, and it is what the cleaned file holds. *)
Lemma completed_run (L : PyLib) file_path image_directory w l w' :
  clean_telegram_data file_path image_directory w = (Ok l, w') ->
  completed w' ->
  exists out,
    fs w !! file_path = Some (File (Csv (loaded w file_path)))
    /\ frame_empty (loaded w file_path) = false
    /\ cleaned (loaded w file_path) = Ok out
    /\ heap w' !! l = Some out
    /\ fs w' !! cleaned_path file_path = Some (File (Csv (read_back out))).
Proof.
  rewrite clean_telegram_data_run. unfold completed.
  destruct (cleaning_steps file_path image_directory w) as [[l1|e] w1] eqn:E.
  - intros [= <- <-].
    apply cleaning_steps_run in E
      as [(_ & _ & _ & _ & m & Hlog)
         |(Hne & Hfile & [(l' & out & [= ->] & Hc & Hl & Hf & _)|[e [=]]])].
    + rewrite Hlog, last_two. discriminate.
    + intros _. exists out. auto.
  - intros [= <- <-]. simpl. rewrite last_snoc. discriminate.
Qed.

(** C10: the table a completed run returns is the object that
    [save_cleaned_data] renamed: its columns are the renamed columns of the
    loaded table, it is the table the cleaned file holds, and none of the
    input names [Channel Username], [Channel Title], [ID], [Date],
    [Media Path] is left; the mapping sends the seven input names to
    [channel_id], [channel_username], [channel_title], [message_id],
    [Message], [date], [media_path], of which [Message], the input name
    kept, is the only one that is not in snake case. *)
Theorem returned_table_is_renamed (L : PyLib)
    file_path image_directory w l w' :
  clean_telegram_data file_path image_directory w = (Ok l, w') ->
  completed w' ->
  exists out,
    heap w' !! l = Some out
    /\ columns out = List.map rename_column (columns (loaded w file_path))
    /\ fs w' !! cleaned_path file_path = Some (File (Csv (read_back out)))
    /\ (forall c,
          c ∈ [CHANNEL_USERNAME; CHANNEL_TITLE; ID; DATE; Media_path] ->
          c ∉ columns out)
    /\ List.map rename_column input_columns = output_columns
    /\ rename_column MESSAGE = MESSAGE
    /\ List.filter (fun c => negb (snake_case c)) output_columns = [MESSAGE].
Proof.
  intros Hrun Hdone.
  destruct (completed_run L _ _ _ _ _ Hrun Hdone)
    as (out & _ & _ & Hc & Hl & Hf).
  apply cleaned_columns in Hc.
  exists out. do 3 (split; [assumption|]).
  split; [|repeat split; reflexivity].
  intros c Hin. rewrite Hc, list_elem_of_In, List.in_map_iff.
  intros (c0 & Hc0 & _). exact (rename_column_fresh c0 c Hin Hc0).
Qed.

(** The run on [sample_table]. *)
Lemma returned_table_is_renamed_witness :
  exists out,
    heap sample_run.2 !! 5%nat = Some out
    /\ columns out
       = List.map rename_column
           (columns (loaded (sample_world (str "data.csv") sample_table)
                       (str "data.csv")))
    /\ fs sample_run.2 !! (cleaned_path (str "data.csv"))
       = Some (File (Csv (read_back (PyLib := reference_lib) out)))
    /\ (forall c,
          c ∈ [CHANNEL_USERNAME; CHANNEL_TITLE; ID; DATE; Media_path] ->
          c ∉ columns out)
    /\ List.map rename_column input_columns = output_columns
    /\ rename_column MESSAGE = MESSAGE
    /\ List.filter (fun c => negb (snake_case c)) output_columns = [MESSAGE].
Proof.
  apply (returned_table_is_renamed reference_lib (str "data.csv") photos
           (sample_world (str "data.csv") sample_table)).
  - vm_compute. reflexivity.
  - vm_compute. reflexivity.
Defined.

(** ** A second pass *)

Lemma frame_empty_rows df :
  frame_empty df = true -> columns df <> [] -> rows df = [].
Proof.
  unfold frame_empty. destruct (columns df), (rows df); congruence.
Qed.


(** On a file whose table has no [ID] column the cleaner returns a table
    without rows and leaves the files alone. *)
Lemma run_without_identifier (L : PyLib) file_path image_directory df w :
  fs w !! file_path = Some (File (Csv df)) ->
  ID ∉ columns df ->
  columns df <> [] ->
  exists l w' out,
    clean_telegram_data file_path image_directory w = (Ok l, w')
    /\ heap w' !! l = Some out /\ rows out = [] /\ fs w' = fs w.
Proof.
  intros Hfile Hid Hcols. rewrite clean_telegram_data_run.
  unfold cleaning_steps. rewrite bind_run, load_data_run, Hfile. run.
  rewrite (read_frame_run _ df) by apply lookup_new.
  destruct (frame_empty df) eqn:Hempty; run.
  - do 3 eexists. split; [reflexivity|]. simpl.
    split; [apply lookup_new|]. split; [|reflexivity].
    apply frame_empty_rows; assumption.
  - unfold remove_duplicates. rewrite bind_run.
    rewrite (read_frame_run _ df) by apply lookup_new.
    unfold frame_duplicated, getitem.
    rewrite (proj2 (index_of_None ID (columns df)) Hid). run.
    do 3 eexists. split; [reflexivity|]. simpl.
    split; [apply lookup_new|]. split; reflexivity.
Qed.

(** C3, amended: after a completed run, a second run on the file the first
    one wrote (it holds as many rows as the first run returned) returns a
    table without rows and changes no file: the written table has no [ID]
    column, and the second pass ends at its deduplication or before. *)
Theorem second_pass_returns_no_rows (L : PyLib)
    file_path image_directory w l1 w1 :
  clean_telegram_data file_path image_directory w = (Ok l1, w1) ->
  completed w1 ->
  exists out1 l2 w2 out2,
    heap w1 !! l1 = Some out1
    /\ fs w1 !! cleaned_path file_path = Some (File (Csv (read_back out1)))
    /\ length (rows (read_back out1)) = length (rows out1)
    /\ (ID ∉ columns (read_back out1))
    /\ clean_telegram_data (cleaned_path file_path) image_directory w1
       = (Ok l2, w2)
    /\ heap w2 !! l2 = Some out2
    /\ rows out2 = []
    /\ fs w2 = fs w1.
Proof.
  intros Hrun Hdone.
  destruct (completed_run L _ _ _ _ _ Hrun Hdone)
    as (out & _ & Hne & Hc & Hl & Hf).
  apply cleaned_columns in Hc.
  assert (Hout : columns out <> []).
  { rewrite Hc. unfold frame_empty in Hne.
    destruct (columns (loaded w file_path)); [discriminate Hne | discriminate]. }
  pose proof (read_back_columns out Hout) as Hback.
  assert (Hid : ID ∉ columns (read_back out)).
  { intros Hin. apply list_elem_of_lookup_1 in Hin as [i Hi].
    destruct (Forall2_lookup_r _ _ _ _ _ Hback Hi)
      as (c & Hcin & [Heq|Hm]); [|vm_compute in Hm; discriminate Hm].
    apply list_elem_of_lookup_2 in Hcin. subst c.
    rewrite Hc, list_elem_of_In, List.in_map_iff in Hcin.
    destruct Hcin as (c0 & Hc0 & _).
    refine (rename_column_fresh c0 ID _ Hc0). right. right. left. }
  assert (Hcols : columns (read_back out) <> []).
  { intros Hnil. rewrite Hnil in Hback. inversion Hback as [Hx|].
    symmetry in Hx. contradiction. }
  destruct (run_without_identifier L _ image_directory _ _ Hf Hid Hcols)
    as (l2 & w2 & out2 & Hrun2 & Hl2 & Hrows & Hfs).
  exists out, l2, w2, out2.
  split; [exact Hl|]. split; [exact Hf|]. split; [apply read_back_rows|].
  auto.
Qed.

(** A second pass after the run on [sample_table]. *)
Lemma second_pass_returns_no_rows_witness :
  exists out1 l2 w2 out2,
    heap sample_run.2 !! 5%nat = Some out1
    /\ fs sample_run.2 !! (cleaned_path (str "data.csv"))
       = Some (File (Csv (read_back (PyLib := reference_lib) out1)))
    /\ length (rows (read_back (PyLib := reference_lib) out1))
       = length (rows out1)
    /\ (ID ∉ columns (read_back (PyLib := reference_lib) out1))
    /\ clean_telegram_data (L := reference_lib) (cleaned_path (str "data.csv"))
         photos sample_run.2
       = (Ok l2, w2)
    /\ heap w2 !! l2 = Some out2
    /\ rows out2 = []
    /\ fs w2 = fs sample_run.2.
Proof.
  apply (second_pass_returns_no_rows reference_lib (str "data.csv") photos
           (sample_world (str "data.csv") sample_table)).
  - vm_compute. reflexivity.
  - vm_compute. reflexivity.
Defined.

(** C3 as stated fails: the first run returns one row and writes it to
    [data_cleaned.csv]; the second run, on that file, returns no row. *)
Lemma second_pass_removes_rows :
  (rows <$> heap sample_run.2 !! 5%nat) = Some [cleaned_sample_row]
  /\ (length ∘ rows <$> (match fs sample_run.2 !! str "data_cleaned.csv" with
                         | Some (File (Csv df)) => Some df
                         | _ => None
                         end)) = Some 1%nat
  /\ let second :=
       clean_telegram_data (L := reference_lib) (str "data_cleaned.csv")
         photos sample_run.2 in
     second.1 = Ok 7%nat /\ (rows <$> heap second.2 !! 7%nat) = Some [].
Proof. vm_compute. repeat split; reflexivity. Qed.

(** ** Deduplication *)






(** ** Persisting *)




(** * Further properties of the cleaner *)

(** ** Filling missing values *)

Lemma cell_insert_eq i v (r : row) :
  (i < length r)%nat -> cell i (<[i:=v]> r) = v.
Proof. intros H. unfold cell. rewrite list_lookup_insert_eq by exact H. reflexivity. Qed.

Lemma index_of_lt c cs i : index_of c cs = Some i -> (i < length cs)%nat.
Proof. intros H%index_of_lookup. eapply lookup_lt_Some, H. Qed.







(** ** Filling twice *)

Lemma fill_row_settled i v (r : row) :
  settled i r -> (if isna (cell i r) then <[i:=v]> r else r) = r.
Proof.
  intros [H|H]; [rewrite H; reflexivity|].
  destruct (isna (cell i r)); [|reflexivity].
  apply list_insert_ge. exact H.
Qed.

Lemma fill_row_settles i j v (r : row) :
  isna v = false ->
  i = j \/ settled i r ->
  settled i (if isna (cell j r) then <[j:=v]> r else r).
Proof.
  intros Hv Hor. unfold settled.
  destruct (isna (cell j r)) eqn:Hj.
  - rewrite length_insert.
    destruct (decide (i = j)) as [->|Hne].
    + destruct (decide (j < length r)%nat) as [Hlt|Hge]; [left | right; lia].
      rewrite cell_insert_eq by exact Hlt. exact Hv.
    + destruct Hor as [?|[H|H]]; [contradiction | left | right; exact H].
      rewrite cell_insert_ne by exact Hne. exact H.
  - destruct Hor as [->|H]; [left; exact Hj | exact H].
Qed.

Lemma fill_column_settled i v rs :
  Forall (settled i) rs -> fill_column i v rs = rs.
Proof.
  intros H. unfold fill_column. induction H as [|r rs Hr _ IH]; simpl;
    [reflexivity|].
  rewrite (fill_row_settled _ _ _ Hr), IH. reflexivity.
Qed.

Lemma fill_column_settles i j v rs :
  isna v = false ->
  i = j \/ Forall (settled i) rs ->
  Forall (settled i) (fill_column j v rs).
Proof.
  intros Hv Hor. unfold fill_column. apply Forall_forall.
  intros r' Hr'. rewrite list_elem_of_In, List.in_map_iff in Hr'.
  destruct Hr' as (r & <- & Hr%list_elem_of_In).
  apply fill_row_settles; [exact Hv|].
  destruct Hor as [->|H]; [left; reflexivity | right].
  rewrite Forall_forall in H. exact (H r Hr).
Qed.

Lemma fillna_settles values df c i :
  (forall cv, cv ∈ values -> isna cv.2 = false) ->
  index_of c (columns df) = Some i ->
  c ∈ List.map fst values \/ Forall (settled i) (rows df) ->
  Forall (settled i) (rows (fillna values df)).
Proof.
  revert df. induction values as [|[c0 v0] values IH]; intros df Hv Hi Hor.
  - destruct Hor as [H|H]; [inversion H | exact H].
  - cbn [fillna foldl fst snd].
    fold (fillna values
            match index_of c0 (columns df) with
            | Some j => with_rows df (fill_column j v0 (rows df))
            | None => df
            end).
    assert (Hv0 : isna v0 = false) by (apply (Hv (c0, v0)); left).
    assert (Hv' : forall cv, cv ∈ values -> isna cv.2 = false)
      by (intros cv Hcv; apply Hv; right; exact Hcv).
    simpl in Hor. rewrite elem_of_cons in Hor.
    destruct (index_of c0 (columns df)) as [j|] eqn:Ej.
    + apply IH; [exact Hv' | exact Hi|].
      destruct Hor as [[->|Hin]|Hall].
      * right. cbn [rows with_rows]. apply fill_column_settles; [exact Hv0|].
        left. congruence.
      * left. exact Hin.
      * right. cbn [rows with_rows]. apply fill_column_settles; [exact Hv0|].
        right. exact Hall.
    + apply IH; [exact Hv' | exact Hi|].
      destruct Hor as [[->|Hin]|Hall]; [congruence | left; exact Hin | right; exact Hall].
Qed.

Lemma fillna_settled values df :
  (forall cv i, cv ∈ values -> index_of cv.1 (columns df) = Some i ->
     Forall (settled i) (rows df)) ->
  fillna values df = df.
Proof.
  revert df. induction values as [|[c0 v0] values IH]; intros df H;
    [reflexivity|].
  cbn [fillna foldl fst snd].
  fold (fillna values
          match index_of c0 (columns df) with
          | Some j => with_rows df (fill_column j v0 (rows df))
          | None => df
          end).
  assert (Hstep : match index_of c0 (columns df) with
                  | Some j => with_rows df (fill_column j v0 (rows df))
                  | None => df
                  end = df).
  { destruct (index_of c0 (columns df)) as [j|] eqn:Ej; [|reflexivity].
    rewrite fill_column_settled; [destruct df; reflexivity|].
    apply (H (c0, v0) j); [left | exact Ej]. }
  rewrite Hstep. apply IH. intros cv i Hcv. apply H. right. exact Hcv.
Qed.

(** [handle_missing_values] a second time changes nothing but the log: the
    placeholders are no missing values. *)
Theorem handle_missing_values_twice data df w :
  heap w !! data = Some df ->
  exists w1 w2,
    handle_missing_values data w = (Ok data, w1)
    /\ handle_missing_values data w1 = (Ok data, w2)
    /\ heap w2 = heap w1
    /\ fs w2 = fs w
    /\ filled (filled df) = filled df.
Proof.
  intros Hdf.
  assert (Hidem : filled (filled df) = filled df).
  { unfold filled. apply fillna_settled. intros [c v] i Hcv Hi.
    rewrite (proj1 (fillna_frame _ _)) in Hi. cbn [fst] in Hi.
    apply (fillna_settles _ _ c); [|exact Hi|].
    - intros cv' Hcv'. elems Hcv'; subst cv'; reflexivity.
    - left. rewrite list_elem_of_In. apply (List.in_map fst _ (c, v)).
      apply list_elem_of_In, Hcv. }
  do 2 eexists. split; [apply handle_missing_values_run, Hdf|].
  split; [apply handle_missing_values_run; simpl; eapply lookup_written, Hdf|].
  simpl. rewrite Hidem, list_insert_insert_eq. auto.
Qed.

(** ** Standardizing *)

Lemma lstrip_lstrip s : lstrip (lstrip s) = lstrip s.
Proof.
  induction s as [|c s IH]; simpl; [reflexivity|].
  destruct (isspace c) eqn:Hc; [exact IH|]. simpl. rewrite Hc. reflexivity.
Qed.

Lemma rstrip_fixed s :
  (forall c, last s = Some c -> isspace c = false) -> rstrip s = s.
Proof.
  induction s as [|x s IH]; intros Hlast; simpl; [reflexivity|].
  destruct s as [|y s].
  - simpl. rewrite (Hlast x eq_refl). reflexivity.
  - rewrite IH by (intros c Hc; apply Hlast; exact Hc). reflexivity.
Qed.

(** [strip] leaves a stripped text as it is. *)
Lemma strip_strip s : strip (strip s) = strip s.
Proof.
  unfold strip. rewrite (rstrip_fixed (lstrip (rstrip s))).
  - apply lstrip_lstrip.
  - intros c H%lstrip_last. exact (rstrip_last _ _ H).
Qed.

Lemma str_accessor_strings vs :
  forallb is_str vs = true -> str_accessor vs = Ok vs.
Proof.
  intros H. unfold str_accessor.
  replace (forallb _ vs) with true; [reflexivity|].
  symmetry. apply forallb_forall. intros v Hv.
  rewrite forallb_forall in H. specialize (H v Hv).
  destruct v; try discriminate H; reflexivity.
Qed.

Lemma on_str_strings f vs :
  forallb is_str vs = true -> forallb is_str (List.map (on_str f) vs) = true.
Proof.
  induction vs as [|v vs IH]; simpl; [reflexivity|].
  intros [Hv Hvs]%andb_prop. rewrite (IH Hvs), andb_true_r.
  destruct v; try discriminate Hv; reflexivity.
Qed.

Section Standardizing.
Context {L : PyLib}.

Lemma series_apply_clean vs :
  series_apply clean_message_cell vs
  = if forallb is_str vs
    then Ok (List.map (on_str clean_message_content) vs)
    else Raise TypeError.
Proof.
  induction vs as [|v vs IH]; [reflexivity|].
  cbn [series_apply forallb List.map]. rewrite IH.
  destruct v as [|s| | |]; try reflexivity.
  cbn [clean_message_cell is_str mbind outcome_bind andb].
  destruct (forallb is_str vs); reflexivity.
Qed.

(** [standardize_messages] on a column: every cell must be a string. *)
Lemma standardize_messages_cells (vs : list value) :
  standardize_messages vs
  = (if forallb is_str vs
     then Ok (List.map (on_str standardize_message) vs)
     else Raise TypeError).
Proof.
  unfold standardize_messages. rewrite series_apply_clean.
  destruct (forallb is_str vs) eqn:Hs; [|reflexivity].
  cbn [mbind outcome_bind]. unfold str_method.
  rewrite str_accessor_strings by (apply on_str_strings, Hs).
  cbn [mbind outcome_bind].
  rewrite str_accessor_strings by (apply on_str_strings, on_str_strings, Hs).
  cbn [mbind outcome_bind]. f_equal.
  rewrite !List.map_map. apply List.map_ext_in. intros v Hv.
  rewrite forallb_forall in Hs. specialize (Hs v Hv).
  destruct v; try discriminate Hs. reflexivity.
Qed.

(** The message column is standardized exactly when all of its cells are
    strings, each to [standardize_message] of its text, which has no
    whitespace at its ends; a cell that is no string makes the step raise
    [TypeError]. *)
Theorem standardize_messages_of_strings (vs : list value) :
  standardize_messages vs
  = (if forallb is_str vs
     then Ok (List.map (on_str standardize_message) vs)
     else Raise TypeError)
  /\ forall s, strip (standardize_message s) = standardize_message s.
Proof.
  split; [apply standardize_messages_cells | intros s; apply strip_strip].
Qed.


Lemma assign_column_lengths i vals n rs :
  Forall (fun r : row => length r = n) rs ->
  Forall (fun r : row => length r = n) (assign_column i vals rs).
Proof.
  revert vals. induction rs as [|r rs IH]; intros vals H.
  - destruct vals; exact H.
  - destruct vals as [|v vals]; [exact H|].
    apply Forall_cons in H as [Hr Hrs]. simpl. constructor.
    + rewrite length_insert. exact Hr.
    + apply IH, Hrs.
Qed.

Lemma assign_column_at i vals n rs :
  Forall (fun r : row => length r = n) rs ->
  (i < n)%nat ->
  length vals = length rs ->
  List.map (cell i) (assign_column i vals rs) = vals.
Proof.
  intros H Hi. revert vals. induction H as [|r rs Hr _ IH]; intros [|v vals];
    simpl; try discriminate; [reflexivity|].
  intros [= Hlen]. rewrite cell_insert_eq by lia. f_equal. apply IH, Hlen.
Qed.

(** The column that [update_table] assigns, on a table of the file. *)
Lemma update_table_column c f df df' i :
  rectangular df ->
  index_of c (columns df) = Some i ->
  update_table c f df = Ok df' ->
  rectangular df'
  /\ exists vals,
       f (column_at i df) = Ok vals
       /\ (length vals = length (rows df) -> column_at i df' = vals).
Proof.
  intros Hrect Hi. unfold update_table. rewrite Hi.
  destruct (f (column_at i df)) as [vals|] eqn:E; simpl; [|discriminate].
  intros [= <-]. split; [apply assign_column_lengths, Hrect|].
  exists vals. split; [reflexivity|]. intros Hlen.
  apply (assign_column_at i vals (length (columns df))); [exact Hrect | | exact Hlen].
  eapply index_of_lt, Hi.
Qed.




End Standardizing.

Section StandardizingFailure.
Context {L : PyLib}.

(** When a cell of the message column is no string, [standardize_formats]
    raises [TypeError] after it has converted the date column: the object
    it was given keeps the converted dates, the files and the log are as
    before. *)
Theorem standardize_formats_raises_after_dates data df w j :
  heap w !! data = Some df ->
  index_of MESSAGE (columns df) = Some j ->
  forallb is_str (column_at j df) = false ->
  exists df1,
    standardize_formats data w
    = (Raise TypeError, mkWorld (<[data:=df1]> (heap w)) (fs w) (log w))
    /\ update_table DATE (fun vs => Ok (to_datetime vs)) df = Ok df1
    /\ columns df1 = columns df
    /\ (rectangular df ->
        forall i, index_of DATE (columns df) = Some i ->
          column_at i df1 = to_datetime (column_at i df))
    /\ (forall i, index_of DATE (columns df) <> Some i ->
          column_at i df1 = column_at i df).
Proof.
  intros Hdf Hj Hstr.
  destruct (update_table DATE (fun vs => Ok (to_datetime vs)) df) as [df1|e]
    eqn:E1.
  2:{ unfold update_table in E1.
      destruct (index_of DATE (columns df)); discriminate E1. }
  exists df1. destruct (update_table_Ok _ _ _ _ E1) as (C1 & L1 & I1).
  assert (Hj1 : column_at j df1 = column_at j df).
  { apply I1. intros Hd. pose proof (index_of_inj _ _ _ _ Hj Hd) as Heq.
    vm_compute in Heq. discriminate Heq. }
  split.
  - unfold standardize_formats.
    rewrite bind_run, (update_column_run _ _ _ _ _ Hdf), E1. run.
    rewrite (update_column_run _ _ _ df1)
      by (simpl; eapply lookup_written, Hdf).
    unfold update_table. rewrite C1, Hj, Hj1.
    rewrite standardize_messages_cells, Hstr. reflexivity.
  - split; [reflexivity|]. split; [exact C1|]. split; [|exact I1].
    intros Hrect i Hi.
    destruct (update_table_column _ _ _ _ _ Hrect Hi E1)
      as (_ & vals & [= <-] & Hcol).
    apply Hcol. rewrite to_datetime_length. apply List.length_map.
Qed.

End StandardizingFailure.

(** ** Deduplication: when it fails, what it leaves *)

Lemma duplicated_from_fresh seen vs :
  NoDup vs -> (forall v, v ∈ vs -> v ∉ seen) ->
  duplicated_from seen vs = List.map (fun _ => false) vs.
Proof.
  revert seen. induction vs as [|v vs IH]; intros seen Hnd Hfresh;
    [reflexivity|].
  apply NoDup_cons in Hnd as [Hv Hnd]. simpl. f_equal.
  - apply bool_decide_eq_false. apply Hfresh. left.
  - apply IH; [exact Hnd|]. intros x Hx [->|Hs]%elem_of_cons;
      [contradiction|]. apply (Hfresh x); [right; exact Hx | exact Hs].
Qed.

Lemma boolean_index_none (rs : list row) :
  boolean_index (List.map (fun _ => false) rs) rs = [].
Proof. induction rs; simpl; auto. Qed.

Lemma boolean_index_all (rs : list row) :
  boolean_index (List.map negb (List.map (fun _ => false) rs)) rs = rs.
Proof. induction rs; simpl; [reflexivity|]. f_equal. assumption. Qed.

Section Deduplicating.
Context {L : PyLib}.






(** On a table whose identifiers are pairwise distinct [remove_duplicates]
    returns a table equal to the one it was given and deletes no file. *)
Theorem remove_duplicates_without_duplicates data df image_directory w :
  heap w !! data = Some df ->
  ID ∈ columns df ->
  NoDup (column_cells df ID) ->
  exists l w',
    remove_duplicates data image_directory w = (Ok l, w')
    /\ heap w' !! l = Some df
    /\ heap w' !! data = Some df
    /\ fs w' = fs w
    /\ removed_rows df = [].
Proof.
  intros Hdf Hid Hnd.
  destruct (index_of_elem _ _ Hid) as [i Hi].
  assert (Hmask : duplicated (column_at i df)
                  = List.map (fun _ => false) (column_at i df)).
  { unfold column_cells in Hnd. rewrite Hi in Hnd.
    apply duplicated_from_fresh; [exact Hnd|]. intros v _ H. inversion H. }
  assert (Hnone : removed_rows df = []).
  { unfold removed_rows, column_cells. rewrite Hi, Hmask.
    unfold column_at. rewrite List.map_map. apply boolean_index_none. }
  unfold remove_duplicates.
  rewrite bind_run, (read_frame_run _ _ _ Hdf).
  unfold drop_duplicates, frame_duplicated, getitem. rewrite Hi. run.
  unfold _remove_duplicate_images. run.
  rewrite (read_frame_run (length (heap w))
             (with_rows df
                (boolean_index (duplicated (column_at i df)) (rows df)))).
  2:{ simpl. apply lookup_old, lookup_new. }
  cbn [rows with_rows]. rewrite Hmask. unfold column_at at 1 2.
  rewrite !List.map_map.
  rewrite (boolean_index_none (rows df)).
  change (List.map (fun x : row => negb false) (rows df))
    with (List.map (fun _ : row => true) (rows df)).
  cbn [for_each]. run.
  do 2 eexists. split; [reflexivity|]. simpl.
  split.
  - rewrite lookup_new. f_equal. destruct df as [cs rs]. unfold with_rows.
    simpl. f_equal. clear. induction rs; simpl; [reflexivity|].
    f_equal. assumption.
  - split; [apply lookup_old, lookup_old, Hdf|]. split; [reflexivity|].
    exact Hnone.
Qed.

End Deduplicating.

(** ** Validation: errors, frame, a second validation *)

Lemma filter_all {A : Type} (f : A -> bool) (l : list A) :
  (forall x, In x l -> f x = true) -> List.filter f l = l.
Proof.
  induction l as [|x l IH]; intros H; simpl; [reflexivity|].
  rewrite (H x) by (left; reflexivity). f_equal. apply IH.
  intros y Hy. apply H. right. exact Hy.
Qed.

Lemma filter_by_len_kept df c test i :
  index_of c (columns df) = Some i ->
  (forall v, test v = true -> is_str v = true) ->
  (forall r, In r (rows df) -> test (cell i r) = true) ->
  filter_by_len df c test = Ok df.
Proof.
  intros Hi Hstr Hall. unfold filter_by_len, getitem. rewrite Hi.
  cbn [mbind outcome_bind]. rewrite str_accessor_strings.
  - cbn [mbind outcome_bind]. unfold column_at.
    rewrite List.map_map, boolean_index_map, filter_all by exact Hall.
    destruct df; reflexivity.
  - apply forallb_forall. unfold column_at. intros v (r & <- & Hr)%List.in_map_iff.
    apply Hstr, Hall, Hr.
Qed.

Lemma len_le_str n v : len_le n v = true -> is_str v = true.
Proof. destruct v; try discriminate; reflexivity. Qed.

Lemma len_gt_str n v : len_gt n v = true -> is_str v = true.
Proof. destruct v; try discriminate; reflexivity. Qed.

Section Validating.
Context {L : PyLib}.

Lemma dropna_kept df c i :
  index_of c (columns df) = Some i ->
  (forall r, In r (rows df) -> negb (isna (cell i r)) = true) ->
  dropna df c = Ok df.
Proof.
  intros Hi Hall. unfold dropna, getitem. rewrite Hi.
  cbn [mbind outcome_bind]. unfold column_at.
  rewrite List.map_map, boolean_index_map, filter_all by exact Hall.
  destruct df; reflexivity.
Qed.

(** A table whose rows all pass the three tests is returned as it is. *)
Lemma validated_kept df i k :
  index_of DATE (columns df) = Some i ->
  index_of CHANNEL_USERNAME (columns df) = Some k ->
  (forall r, In r (rows df) -> negb (isna (cell i r)) = true) ->
  (forall r, In r (rows df) -> len_gt 0 (cell k r) = true) ->
  (forall j, index_of MESSAGE (columns df) = Some j ->
     forall r, In r (rows df) -> len_le 1000 (cell j r) = true) ->
  validated df = Ok df.
Proof.
  intros Hi Hk H1 H3 H2. unfold validated.
  rewrite (dropna_kept df DATE i Hi H1). cbn [mbind outcome_bind].
  destruct (bool_decide_reflect (MESSAGE ∈ columns df)) as [Hm|Hm].
  - destruct (index_of_elem _ _ Hm) as [j Hj].
    rewrite (filter_by_len_kept df MESSAGE (len_le 1000) j Hj);
      [|apply len_le_str | apply H2, Hj].
    cbn [mbind outcome_bind].
    apply (filter_by_len_kept df CHANNEL_USERNAME (len_gt 0) k Hk);
      [apply len_gt_str | exact H3].
  - cbn [mbind outcome_bind].
    apply (filter_by_len_kept df CHANNEL_USERNAME (len_gt 0) k Hk);
      [apply len_gt_str | exact H3].
Qed.

(** A validated table passes the validation whole. *)
Lemma validated_fixed df out :
  validated df = Ok out -> validated out = Ok out.
Proof.
  intros Hval. pose proof Hval as Hval'. unfold validated in Hval'.
  destruct (dropna df DATE) as [df1|] eqn:E1; simpl in Hval'; [|discriminate].
  apply dropna_Ok in E1 as (i & Hi & ->). cbn [columns with_rows] in Hval'.
  destruct (validated_Ok _ _ Hval) as (Hc & _ & Hrows).
  assert (Hk : exists k, index_of CHANNEL_USERNAME (columns df) = Some k).
  { destruct (bool_decide (MESSAGE ∈ columns df)).
    - destruct (filter_by_len _ MESSAGE _) as [df2|] eqn:E2; simpl in Hval';
        [|discriminate].
      apply filter_by_len_Ok in E2 as (j & Hj & ->).
      apply filter_by_len_Ok in Hval' as (k & Hk & _). eauto.
    - apply filter_by_len_Ok in Hval' as (k & Hk & _). eauto. }
  destruct Hk as [k Hk].
  destruct (bool_decide_reflect (MESSAGE ∈ columns df)) as [Hm|Hm].
  - specialize (Hrows Hm).
    apply (validated_kept out i k); rewrite ?Hc; try assumption.
    + intros r Hr. rewrite Hrows in Hr. apply List.filter_In in Hr as [_ Hr].
      apply andb_prop in Hr as [Hr _]. apply andb_prop in Hr as [Hr _].
      unfold date_present, row_cell in Hr. rewrite Hi in Hr. exact Hr.
    + intros r Hr. rewrite Hrows in Hr. apply List.filter_In in Hr as [_ Hr].
      apply andb_prop in Hr as [_ Hr].
      unfold username_present, row_cell in Hr. rewrite Hk in Hr. exact Hr.
    + intros j Hj r Hr. rewrite Hrows in Hr.
      apply List.filter_In in Hr as [_ Hr].
      apply andb_prop in Hr as [Hr _]. apply andb_prop in Hr as [_ Hr].
      unfold message_bounded, row_cell in Hr. rewrite Hj in Hr. exact Hr.
  - apply filter_by_len_Ok in Hval' as (k' & Hk' & ->).
    cbn [columns with_rows] in Hk'. assert (k' = k) as -> by congruence.
    apply (validated_kept _ i k); cbn [columns rows with_rows];
      try assumption.
    + intros r Hr. apply List.filter_In in Hr as [Hr _].
      apply List.filter_In in Hr as [_ Hr]. exact Hr.
    + intros r Hr. apply List.filter_In in Hr as [_ Hr]. exact Hr.
    + intros j Hj. apply index_of_lookup, list_elem_of_lookup_2 in Hj.
      contradiction.
Qed.

(** [validate_data] builds new tables: whatever its outcome, the table it
    was given, every other table and the files are as before.  Without a
    date column it raises [KeyError] at once; with one and without a channel
    username column it raises [KeyError] unless the message column makes it
    raise first. *)
Theorem validate_data_frame data df w res w' :
  heap w !! data = Some df ->
  validate_data data w = (res, w') ->
  (exists new, heap w' = heap w ++ new)
  /\ fs w' = fs w
  /\ (DATE ∉ columns df -> res = Raise (KeyError DATE) /\ w' = w)
  /\ (DATE ∈ columns df -> CHANNEL_USERNAME ∉ columns df ->
      MESSAGE ∉ columns df -> res = Raise (KeyError CHANNEL_USERNAME))
  /\ (forall l, res = Ok l ->
      exists out, validated df = Ok out /\ heap w' !! l = Some out).
Proof.
  intros Hdf. unfold validate_data.
  rewrite bind_run, (read_frame_run _ _ _ Hdf).
  unfold dropna at 1, getitem at 1.
  destruct (index_of DATE (columns df)) as [i|] eqn:Ei; run.
  2:{ intros [= <- <-]. split; [exists []; symmetry; apply app_nil_r|].
      split; [reflexivity|]. split; [auto|].
      split; [|discriminate]. intros Hd. apply index_of_None in Ei.
      contradiction. }
  assert (Hd : DATE ∈ columns df)
    by (eapply list_elem_of_lookup_2, index_of_lookup, Ei).
  assert (Hdrop : dropna df DATE
                  = Ok (with_rows df
                          (boolean_index
                             (List.map (fun v => negb (isna v)) (column_at i df))
                             (rows df)))).
  { unfold dropna, getitem. rewrite Ei. reflexivity. }
  cbn [columns with_rows].
  destruct (bool_decide_reflect (MESSAGE ∈ columns df)) as [Hm|Hm];
    set (df1 := with_rows df _) in *; run.
  - destruct (filter_by_len df1 MESSAGE (len_le 1000)) as [df2|e] eqn:E2; run.
    2:{ intros [= <- <-]. simpl. split; [eauto|]. split; [reflexivity|].
        split; [contradiction|]. split; [contradiction | discriminate]. }
    rewrite (read_frame_run _ df2) by apply lookup_new.
    destruct (filter_by_len df2 CHANNEL_USERNAME (len_gt 0)) as [df3|e] eqn:E3;
      run; intros [= <- <-]; simpl;
      (split; [rewrite <- !app_assoc; eauto|]); (split; [reflexivity|]);
      (split; [contradiction|]); (split; [contradiction|]).
    + intros l [= <-]. exists df3. split; [|apply lookup_new].
      unfold validated. rewrite Hdrop. cbn [mbind outcome_bind].
      rewrite bool_decide_true by exact Hm. rewrite E2.
      cbn [mbind outcome_bind]. exact E3.
    + discriminate.
  - rewrite (read_frame_run _ df1) by apply lookup_new.
    destruct (filter_by_len df1 CHANNEL_USERNAME (len_gt 0)) as [df3|e] eqn:E3;
      run; intros [= <- <-]; simpl;
      (split; [rewrite <- ?app_assoc; eauto|]); (split; [reflexivity|]);
      (split; [contradiction|]).
    + split.
      * intros _ Hu _. unfold filter_by_len, getitem in E3.
        apply index_of_None in Hu. cbn [columns df1 with_rows] in E3.
        rewrite Hu in E3. discriminate E3.
      * intros l [= <-]. exists df3. split; [|apply lookup_new].
        unfold validated. rewrite Hdrop. cbn [mbind outcome_bind].
        rewrite bool_decide_false by exact Hm. exact E3.
    + split; [|discriminate].
      intros _ Hu _. unfold filter_by_len, getitem in E3.
      apply index_of_None in Hu. cbn [columns df1 with_rows] in E3.
      rewrite Hu in E3. cbn [mbind outcome_bind] in E3. congruence.
Qed.

(** [validate_data] on the table it has returned returns an equal table:
    a second validation removes no row and does not raise. *)
Theorem validate_data_twice data df w l w1 :
  heap w !! data = Some df ->
  validate_data data w = (Ok l, w1) ->
  exists out l2 w2,
    heap w1 !! l = Some out
    /\ validate_data l w1 = (Ok l2, w2)
    /\ heap w2 !! l2 = Some out
    /\ fs w2 = fs w.
Proof.
  intros Hdf Hrun.
  pose proof (validate_data_run data df w Hdf) as H.
  destruct (validated df) as [out|e] eqn:E.
  2:{ destruct H as (w' & H & _). congruence. }
  destruct H as (l' & w' & H & Hl & Hfs & _).
  rewrite H in Hrun. injection Hrun as -> ->.
  pose proof (validate_data_run l out w1 Hl) as H2.
  rewrite (validated_fixed _ _ E) in H2.
  destruct H2 as (l2 & w2 & H2 & Hl2 & Hfs2 & _).
  exists out, l2, w2. rewrite Hfs2, Hfs. auto.
Qed.

End Validating.

(** ** Persisting and loading *)

(** The output names are stable: renaming a renamed label changes
    nothing. *)
Lemma rename_column_twice c : rename_column (rename_column c) = rename_column c.
Proof.
  unfold rename_column at 2 3.
  destruct (column_mapping !! c) as [d|] eqn:E; simpl.
  - apply column_mapping_lookup in E.
    elems E; injection E as -> ->; vm_compute; reflexivity.
  - unfold rename_column. rewrite E. reflexivity.
Qed.

(** Renaming the columns of a renamed table changes nothing. *)
Theorem rename_twice df : rename (rename df) = rename df.
Proof.
  unfold rename. simpl. f_equal. rewrite List.map_map.
  apply List.map_ext. intros c. apply rename_column_twice.
Qed.


Section Persisting.
Context {L : PyLib}.

(** [load_data] never raises and never changes a file or a table that
    exists: it returns a new table, the table of the file when pandas parses
    it and the empty table otherwise, and logs one line. *)
Theorem load_data_returns_a_new_table file_path w :
  exists m,
    load_data file_path w
    = (Ok (length (heap w)),
       mkWorld (heap w ++ [loaded w file_path]) (fs w) (log w ++ [m]))
    /\ ((exists df, fs w !! file_path = Some (File (Csv df)))
        \/ loaded w file_path = empty_frame).
Proof.
  destruct (load_data_loaded file_path w) as (m & Hm & Hrun).
  exists m. split; [exact Hrun|].
  destruct Hm as [[_ H]|[H _]]; [eauto|]. right. unfold loaded.
  destruct (fs w !! file_path) as [[[df|]|]|] eqn:E; try reflexivity.
  destruct (H df). reflexivity.
Qed.

(** When the cleaned path is a directory the write fails with
    [IsADirectoryError]; the columns of the caller's table have been renamed
    all the same, and no file and no line of the log has changed. *)
Theorem save_cleaned_data_on_a_directory data df file_path w :
  heap w !! data = Some df ->
  fs w !! cleaned_path file_path = Some Directory ->
  exists w',
    save_cleaned_data data file_path w = (Raise IsADirectoryError, w')
    /\ heap w' !! data = Some (rename df)
    /\ (forall l, l <> data -> heap w' !! l = heap w !! l)
    /\ fs w' = fs w
    /\ log w' = log w.
Proof.
  intros Hdf Hdir. rewrite (save_cleaned_data_run _ _ _ _ Hdf).
  unfold write_failure. rewrite Hdir.
  eexists. split; [reflexivity|]. simpl.
  split; [eapply lookup_written, Hdf|].
  split; [|split; reflexivity].
  intros l Hl. apply list_lookup_insert_ne. congruence.
Qed.


End Persisting.

(** ** A whole run *)

Lemma validated_rows {L : PyLib} df out :
  validated df = Ok out ->
  exists i k,
    index_of DATE (columns df) = Some i
    /\ index_of CHANNEL_USERNAME (columns df) = Some k
    /\ forall r, r ∈ rows out ->
         r ∈ rows df
         /\ isna (cell i r) = false
         /\ len_gt 0 (cell k r) = true
         /\ forall j, index_of MESSAGE (columns df) = Some j ->
              len_le 1000 (cell j r) = true.
Proof.
  unfold validated.
  destruct (dropna df DATE) as [df1|] eqn:E1; simpl; [|discriminate].
  apply dropna_Ok in E1 as (i & Hi & ->). cbn [columns with_rows].
  destruct (bool_decide_reflect (MESSAGE ∈ columns df)) as [Hm|Hm].
  - destruct (filter_by_len _ MESSAGE _) as [df2|] eqn:E2; simpl; [|discriminate].
    apply filter_by_len_Ok in E2 as (j & Hj & ->). simpl in Hj.
    intros (k & Hk & ->)%filter_by_len_Ok. simpl in Hk.
    exists i, k. split; [exact Hi|]. split; [exact Hk|].
    cbn [rows with_rows]. intros r Hr.
    rewrite list_elem_of_In, !List.filter_In in Hr.
    destruct Hr as [[[Hr H1] H2] H3]. split; [apply list_elem_of_In, Hr|].
    split; [destruct (isna (cell i r)); [discriminate H1 | reflexivity]|].
    split; [exact H3|]. intros j' Hj'. congruence.
  - intros (k & Hk & ->)%filter_by_len_Ok. simpl in Hk.
    exists i, k. split; [exact Hi|]. split; [exact Hk|].
    cbn [rows with_rows]. intros r Hr.
    rewrite list_elem_of_In, !List.filter_In in Hr.
    destruct Hr as [[Hr H1] H3]. split; [apply list_elem_of_In, Hr|].
    split; [destruct (isna (cell i r)); [discriminate H1 | reflexivity]|].
    split; [exact H3|]. intros j Hj.
    apply index_of_lookup, list_elem_of_lookup_2 in Hj. contradiction.
Qed.

Lemma assign_column_cells i vals rs :
  length vals = length rs ->
  forall r, r ∈ assign_column i vals rs -> cell i r = NaN \/ cell i r ∈ vals.
Proof.
  revert vals. induction rs as [|r0 rs IH]; intros [|v vals]; simpl;
    try discriminate; intros Hlen r Hr; [inversion Hr|].
  apply elem_of_cons in Hr as [->|Hr].
  - destruct (decide (i < length r0)%nat) as [Hlt|Hge].
    + right. rewrite cell_insert_eq by exact Hlt. left.
    + left. unfold cell. rewrite list_insert_ge by lia.
      rewrite lookup_ge_None_2 by lia. reflexivity.
  - destruct (IH vals ltac:(congruence) r Hr) as [H|H]; [left | right; right];
      exact H.
Qed.

Lemma column_at_elem i df r : r ∈ rows df -> cell i r ∈ column_at i df.
Proof.
  intros Hr. unfold column_at. rewrite list_elem_of_In.
  apply List.in_map, list_elem_of_In, Hr.
Qed.

Section WholeRun.
Context {L : PyLib}.

(** After the date column has been converted, a cell of it is a timestamp
    or missing. *)
Lemma converted_dates df df1 i :
  index_of DATE (columns df) = Some i ->
  update_table DATE (fun vs => Ok (to_datetime vs)) df = Ok df1 ->
  forall v, v ∈ column_at i df1 -> isna v = true \/ exists t, v = Timestamp t.
Proof.
  intros Hi. unfold update_table. rewrite Hi. cbn [mbind outcome_bind].
  intros [= <-] v Hv. unfold column_at in Hv. cbn [rows with_rows] in Hv.
  rewrite list_elem_of_In, List.in_map_iff in Hv.
  destruct Hv as (r & <- & Hr%list_elem_of_In).
  apply assign_column_cells in Hr as [->|Hin].
  - left. reflexivity.
  - pose proof (to_datetime_type (column_at i df)) as Hty.
    rewrite forallb_forall in Hty. apply list_elem_of_In, Hty in Hin.
    destruct (cell i r); try discriminate Hin; [eauto | left; reflexivity].
  - rewrite to_datetime_length. unfold column_at. apply List.length_map.
Qed.

Lemma standardized_dates df df3 i :
  standardized df = Ok df3 ->
  index_of DATE (columns df) = Some i ->
  forall v, v ∈ column_at i df3 -> isna v = true \/ exists t, v = Timestamp t.
Proof.
  unfold standardized. intros E Hi.
  destruct (update_table DATE _ df) as [df1|] eqn:E1; simpl in E; [|discriminate].
  destruct (update_table MESSAGE _ df1) as [df2|] eqn:E2; simpl in E;
    [|discriminate].
  destruct (update_table_Ok _ _ _ _ E1) as (C1 & _ & _).
  destruct (update_table_Ok _ _ _ _ E2) as (C2 & _ & I2).
  destruct (update_table_Ok _ _ _ _ E) as (_ & _ & I3).
  rewrite I3, I2; [exact (converted_dates _ _ _ Hi E1)|..];
    rewrite ?C2, ?C1; intros Hc;
    pose proof (index_of_inj _ _ _ _ Hi Hc) as Heq;
    vm_compute in Heq; discriminate Heq.
Qed.

(** The rows a completed run returns: no more than the file holds, each with
    a timestamp in the date column, a non-empty string in the channel
    username column and, when the file has a message column, a string of at
    most 1000 characters in it (the columns are taken at their positions in
    the file's table, which the renaming keeps). *)
Theorem completed_run_returns_valid_rows
    file_path image_directory w l w' :
  clean_telegram_data file_path image_directory w = (Ok l, w') ->
  completed w' ->
  exists out i k,
    heap w' !! l = Some out
    /\ (length (rows out) <= length (rows (loaded w file_path)))%nat
    /\ index_of DATE (columns (loaded w file_path)) = Some i
    /\ index_of CHANNEL_USERNAME (columns (loaded w file_path)) = Some k
    /\ forall r, r ∈ rows out ->
         (exists t, cell i r = Timestamp t)
         /\ (exists u, cell k r = Str u /\ (0 < length u)%nat)
         /\ forall j,
              index_of MESSAGE (columns (loaded w file_path)) = Some j ->
              exists s, cell j r = Str s /\ (length s <= 1000)%nat.
Proof.
  intros Hrun Hdone.
  destruct (completed_run L _ _ _ _ _ Hrun Hdone)
    as (out & _ & _ & Hc & Hl & _).
  set (df0 := loaded w file_path) in *. unfold cleaned in Hc.
  destruct (drop_duplicates df0 ID) as [kept|] eqn:E1; simpl in Hc;
    [|discriminate].
  destruct (standardized (filled kept)) as [df3|] eqn:E3; simpl in Hc;
    [|discriminate].
  destruct (validated df3) as [df4|] eqn:E4; simpl in Hc; [|discriminate].
  injection Hc as <-.
  apply drop_duplicates_index in E1 as (iid & _ & ->).
  destruct (standardized_Ok _ _ E3) as (C3 & L3 & _).
  unfold filled in C3, L3.
  rewrite (proj1 (fillna_frame _ _)) in C3.
  rewrite (proj1 (proj2 (fillna_frame _ _))) in L3.
  cbn [columns rows with_rows] in C3, L3.
  destruct (validated_rows _ _ E4) as (i & k & Hi & Hk & Hrows).
  destruct (validated_Ok _ _ E4) as (_ & Hsub & _).
  rewrite C3 in Hi, Hk.
  exists (rename df4), i, k. split; [exact Hl|]. cbn [rows rename].
  split.
  { apply sublist_length in Hsub. rewrite L3 in Hsub.
    pose proof (sublist_length _ _
                  (boolean_index_sublist
                     (List.map negb (duplicated (column_at iid df0)))
                     (rows df0))).
    lia. }
  split; [exact Hi|]. split; [exact Hk|].
  intros r Hr. destruct (Hrows r Hr) as (Hr3 & Hd & Hu & Hm).
  split; [|split].
  - destruct (standardized_dates _ _ i E3) with (v := cell i r)
      as [Hna|Ht]; [| apply column_at_elem, Hr3 | congruence | exact Ht].
    unfold filled. rewrite (proj1 (fillna_frame _ _)). exact Hi.
  - unfold len_gt, str_len in Hu. destruct (cell k r) as [|u| | |];
      try discriminate Hu.
    exists u. split; [reflexivity|]. apply Nat.ltb_lt, Hu.
  - intros j Hj. rewrite <- C3 in Hj. specialize (Hm j Hj).
    unfold len_le, str_len in Hm. destruct (cell j r) as [|s| | |];
      try discriminate Hm.
    exists s. split; [reflexivity|]. apply Nat.leb_le, Hm.
Qed.




(** [clean_telegram_data] ends with a result. *)
Lemma clean_telegram_data_returns file_path image_directory w :
  exists l w', clean_telegram_data file_path image_directory w = (Ok l, w').
Proof.
  rewrite clean_telegram_data_run.
  destruct (cleaning_steps file_path image_directory w) as [[l|e] w1]; eauto.
Qed.




End WholeRun.

(** ** The properties on the sample data *)


Lemma handle_missing_values_twice_witness :
  exists w1 w2,
    handle_missing_values 0 (stage_world gapped_table) = (Ok 0%nat, w1)
    /\ handle_missing_values 0 w1 = (Ok 0%nat, w2)
    /\ heap w2 = heap w1
    /\ fs w2 = fs (stage_world gapped_table)
    /\ filled (filled gapped_table) = filled gapped_table.
Proof.
  apply (handle_missing_values_twice 0 gapped_table (stage_world gapped_table)).
  reflexivity.
Defined.


Lemma standardize_formats_raises_after_dates_witness :
  exists df1,
    standardize_formats (L := reference_lib) 0 (stage_world numeric_table)
    = (Raise TypeError,
       mkWorld (<[0%nat:=df1]> (heap (stage_world numeric_table)))
         (fs (stage_world numeric_table)) (log (stage_world numeric_table)))
    /\ update_table DATE
         (fun vs => Ok (to_datetime (PyLib := reference_lib) vs)) numeric_table
       = Ok df1
    /\ columns df1 = columns numeric_table
    /\ (rectangular numeric_table ->
        forall i, index_of DATE (columns numeric_table) = Some i ->
          column_at i df1
          = to_datetime (PyLib := reference_lib) (column_at i numeric_table))
    /\ (forall i, index_of DATE (columns numeric_table) <> Some i ->
          column_at i df1 = column_at i numeric_table).
Proof.
  apply (standardize_formats_raises_after_dates (L := reference_lib) 0
           numeric_table (stage_world numeric_table) 4).
  - reflexivity.
  - vm_compute. reflexivity.
  - vm_compute. reflexivity.
Defined.


Lemma remove_duplicates_without_duplicates_witness :
  exists l w',
    remove_duplicates (L := reference_lib) 0 photos (stage_world sample_table)
    = (Ok l, w')
    /\ heap w' !! l = Some sample_table
    /\ heap w' !! 0%nat = Some sample_table
    /\ fs w' = fs (stage_world sample_table)
    /\ removed_rows sample_table = [].
Proof.
  apply (remove_duplicates_without_duplicates (L := reference_lib) 0
           sample_table photos (stage_world sample_table)).
  - reflexivity.
  - apply (bool_decide_unpack _). vm_compute. exact I.
  - apply (bool_decide_unpack _). vm_compute. exact I.
Defined.

Lemma validate_data_twice_witness :
  exists out l2 w2,
    heap validated_stage.2 !! 3%nat = Some out
    /\ validate_data 3 validated_stage.2 = (Ok l2, w2)
    /\ heap w2 !! l2 = Some out
    /\ fs w2 = fs (stage_world standardized_table).
Proof.
  apply (validate_data_twice 0 standardized_table
           (stage_world standardized_table) 3 validated_stage.2).
  - reflexivity.
  - vm_compute. reflexivity.
Defined.

Lemma validate_data_frame_witness :
  (exists new,
     heap validated_stage.2 = heap (stage_world standardized_table) ++ new)
  /\ fs validated_stage.2 = fs (stage_world standardized_table)
  /\ (DATE ∉ columns standardized_table ->
      Ok 3%nat = Raise (KeyError DATE)
      /\ validated_stage.2 = stage_world standardized_table)
  /\ (DATE ∈ columns standardized_table ->
      CHANNEL_USERNAME ∉ columns standardized_table ->
      MESSAGE ∉ columns standardized_table ->
      Ok 3%nat = Raise (KeyError CHANNEL_USERNAME))
  /\ (forall l, Ok 3%nat = Ok l ->
      exists out,
        validated standardized_table = Ok out
        /\ heap validated_stage.2 !! l = Some out).
Proof.
  apply (validate_data_frame 0 standardized_table
           (stage_world standardized_table) (Ok 3%nat) validated_stage.2).
  - reflexivity.
  - vm_compute. reflexivity.
Defined.

Lemma save_cleaned_data_on_a_directory_witness :
  exists w',
    save_cleaned_data (L := reference_lib) 0 (str "data.csv")
      (blocked_world sample_table)
    = (Raise IsADirectoryError, w')
    /\ heap w' !! 0%nat = Some (rename sample_table)
    /\ (forall l, l <> 0%nat ->
          heap w' !! l = heap (blocked_world sample_table) !! l)
    /\ fs w' = fs (blocked_world sample_table)
    /\ log w' = log (blocked_world sample_table).
Proof.
  apply (save_cleaned_data_on_a_directory (L := reference_lib) 0 sample_table
           (str "data.csv") (blocked_world sample_table)).
  - reflexivity.
  - vm_compute. reflexivity.
Defined.


Lemma completed_run_returns_valid_rows_witness :
  exists out i k,
    heap sample_run.2 !! 5%nat = Some out
    /\ (length (rows out)
        <= length (rows (loaded (sample_world (str "data.csv") sample_table)
                           (str "data.csv"))))%nat
    /\ index_of DATE
         (columns (loaded (sample_world (str "data.csv") sample_table)
                     (str "data.csv")))
       = Some i
    /\ index_of CHANNEL_USERNAME
         (columns (loaded (sample_world (str "data.csv") sample_table)
                     (str "data.csv")))
       = Some k
    /\ forall r, r ∈ rows out ->
         (exists t, cell i r = Timestamp t)
         /\ (exists u, cell k r = Str u /\ (0 < length u)%nat)
         /\ forall j,
              index_of MESSAGE
                (columns (loaded (sample_world (str "data.csv") sample_table)
                            (str "data.csv")))
              = Some j ->
              exists s, cell j r = Str s /\ (length s <= 1000)%nat.
Proof.
  apply (completed_run_returns_valid_rows (L := reference_lib)
           (str "data.csv") photos
           (sample_world (str "data.csv") sample_table) 5 sample_run.2).
  - vm_compute. reflexivity.
  - vm_compute. reflexivity.
Defined.


